(** * Blogicum: visibility, ownership and form rules of the blog application

    A shallow embedding of [blogicum/blog/models.py], [managers.py],
    [forms.py] and [views.py].  Database tables are finite maps from
    primary key to row, querysets are lists of [(pk, row)] pairs, and a view
    is a function from the store, the clock and the request to the new store
    and a response. *)

From Stdlib Require Import Ascii.
From stdpp Require Import gmap strings list fin_maps sorting.

Local Open Scope Z_scope.

(** ** models.py *)

(** Timestamps ([DateTimeField]) are integers: microseconds since the epoch. *)
Abbreviation timestamp := Z (only parsing).

(** Python [str] is a sequence of Unicode code points.  The comment text,
    which the form strips and measures, is kept in that form; the text
    fields that the code only stores and compares are [string]s. *)
Abbreviation str := (list N) (only parsing).

(** The code points of an ASCII literal. *)
Definition str_of (s : string) : str :=
  N_of_ascii <$> String.list_ascii_of_string s.

(** The user model of the authentication framework, with the fields that
    [UserForm] edits. *)
Module User.
Record t := {
  username : string;
  first_name : string;
  last_name : string;
  email : string }.
End User.

(** Modelled from the spec: the abstract bases [PublishedModel] and
    [CreatedAt] are declared in core/models.py, which is not among these
    files; they contribute the [is_published] flag and the [created_at]
    timestamp of [Category], [Location] and [Post].  The default of
    [is_published] is a parameter of the view that creates posts. *)
Module Category.
Record t := {
  title : string;
  description : string;
  slug : string;
  is_published : bool;
  created_at : timestamp }.
End Category.

Module Location.
Record t := {
  name : string;
  is_published : bool;
  created_at : timestamp }.
End Location.

(** Foreign keys hold the primary key of the referenced row; the nullable
    ones ([null=True]) are options. *)
Module Post.
Record t := {
  title : string;
  text : string;
  pub_date : timestamp;
  author : option Z;
  category : option Z;
  location : option Z;
  image : string;
  is_published : bool;
  created_at : timestamp }.
End Post.

Module Comment.
Record t := {
  text : str;
  post : Z;
  created_at : timestamp;
  author : Z }.

(** [text = models.TextField('Комментарий', max_length=120)] *)
Definition text_max_length : nat := 120.
End Comment.

(** The entity store: one table per model. *)
Record Store := {
  users : gmap Z User.t;
  categories : gmap Z Category.t;
  locations : gmap Z Location.t;
  posts : gmap Z Post.t;
  comments : gmap Z Comment.t }.

(** [Model.objects.all()]: the rows of a table with their primary keys. *)
Definition all {A} (table : gmap Z A) : list (Z * A) := map_to_list table.

(** The key a table gives to a newly inserted row (an [AutoField]): one more
    than the largest key in use. *)
Definition new_pk {A} (table : gmap Z A) : Z :=
  1 + foldr Z.max 0 ((all table).*1).

(** ** managers.py *)

(** [category__is_published=True]: the join drops posts whose category is
    null. *)
Definition category__is_published (s : Store) (p : Post.t) : bool :=
  match Post.category p with
  | Some k =>
      match categories s !! k with
      | Some c => Category.is_published c
      | None => false
      end
  | None => false
  end.

(** The keyword arguments of the [filter] call of [PostManager.get_queryset]:
    [is_published=True, category__is_published=True, pub_date__lt=now]. *)
Definition published_filter (s : Store) (now : timestamp) (r : Z * Post.t) : bool :=
  Post.is_published r.2 && category__is_published s r.2
  && bool_decide (Post.pub_date r.2 < now).

(** [order_by('-pub_date')] *)
Definition newer_first (a b : Z * Post.t) : Prop :=
  Post.pub_date b.2 ≤ Post.pub_date a.2.

#[global] Instance newer_first_dec a b : Decision (newer_first a b).
Proof. unfold newer_first. apply _. Defined.

Definition order_by_pub_date_desc (l : list (Z * Post.t)) : list (Z * Post.t) :=
  merge_sort newer_first l.

(** [Count('comments')]: the comments whose [post] is the given key. *)
Definition Count_comments (s : Store) (post_id : Z) : nat :=
  length (filter (λ c, Comment.post c.2 = post_id) (all (comments s))).

(** [annotate(comment_count=Count('comments'))] *)
Definition annotate (s : Store) (l : list (Z * Post.t)) : list (Z * Post.t * nat) :=
  (λ r, (r, Count_comments s r.1)) <$> l.

(** [PostManager.get_queryset], the queryset behind [Post.manager]. *)
Definition PostManager_get_queryset (s : Store) (now : timestamp)
  : list (Z * Post.t * nat) :=
  annotate s
    (order_by_pub_date_desc
       (filter (λ r, published_filter s now r) (all (posts s)))).


(** ** forms.py *)

(** [str.isspace], which is also what [str.strip] removes: the code points
    that Python counts as whitespace. *)
Definition isspace (c : N) : bool :=
  bool_decide
    (c ∈ [9; 10; 11; 12; 13; 28; 29; 30; 31; 32; 133; 160; 5760;
          8192; 8193; 8194; 8195; 8196; 8197; 8198; 8199; 8200; 8201; 8202;
          8232; 8233; 8239; 8287; 12288]%N).

(** [str.strip]: leading and trailing whitespace removed. *)
Fixpoint lstrip (s : str) : str :=
  match s with
  | [] => []
  | c :: s' => if isspace c then lstrip s' else s
  end.

Fixpoint rstrip (s : str) : str :=
  match s with
  | [] => []
  | c :: s' =>
      match rstrip s' with
      | [] => if isspace c then [] else [c]
      | r => c :: r
      end
  end.

Definition strip (s : str) : str := rstrip (lstrip s).

(** ["\x00" in value] *)
Definition contains_null (s : str) : bool := bool_decide (0%N ∈ s).

(** [forms.CharField.clean]: [to_python] strips the submitted value, a
    required field rejects the empty string, then [MaxLengthValidator] and
    [ProhibitNullCharactersValidator] run on the stripped value.  [None] is
    a validation error. *)
Definition CharField_clean (required : bool) (max_length : option nat)
    (value : str) : option str :=
  let value := strip value in
  if bool_decide (value = []) then
    if required then None else Some value
  else if
    match max_length with
    | Some limit => bool_decide (limit < length value)%nat
    | None => false
    end
  then None
  else if contains_null value then None
  else Some value.

(** [CommentForm]: [fields = ('text',)].  The model field [Comment.text] is a
    required [TextField] with [max_length=120], whose form field is a
    [CharField] with that limit; the [Textarea] widget changes only the
    rendering. *)
Module CommentForm.
Definition clean (text : str) : option str :=
  CharField_clean true (Some Comment.text_max_length) text.
End CommentForm.

(** [PostForm]: every editable field of [Post] except [author] and
    [is_published].  [category] is required by the form ([blank] is not set
    on the model field), [location] and [image] are optional. *)
Module PostForm.
Record cleaned_data := {
  title : string;
  text : string;
  pub_date : timestamp;
  category : Z;
  location : option Z;
  image : string }.

(** [ModelForm.save] on an existing instance: the form's fields are
    assigned, the excluded ones are kept. *)
Definition assign (d : cleaned_data) (instance : Post.t) : Post.t :=
  {| Post.title := title d;
     Post.text := text d;
     Post.pub_date := pub_date d;
     Post.author := Post.author instance;
     Post.category := Some (category d);
     Post.location := location d;
     Post.image := image d;
     Post.is_published := Post.is_published instance;
     Post.created_at := Post.created_at instance |}.
End PostForm.

(** [UserForm]: [fields = ('username', 'first_name', 'last_name', 'email')]. *)
Module UserForm.
Record cleaned_data := {
  username : string;
  first_name : string;
  last_name : string;
  email : string }.

Definition assign (d : cleaned_data) : User.t :=
  {| User.username := username d;
     User.first_name := first_name d;
     User.last_name := last_name d;
     User.email := email d |}.
End UserForm.

(** ** views.py *)

(** [request.user]: the anonymous user, or the logged-in user's row with its
    primary key. *)
Inductive RequestUser :=
| AnonymousUser
| LoggedIn (pk : Z) (user : User.t).

Definition is_authenticated (user : RequestUser) : bool :=
  match user with
  | LoggedIn _ _ => true
  | AnonymousUser => false
  end.

(** [request.user.username]; the anonymous user's is the empty string. *)
Definition request_username (user : RequestUser) : string :=
  match user with
  | LoggedIn _ u => User.username u
  | AnonymousUser => EmptyString
  end.

(** [author == request.user]: two model instances are equal when their
    primary keys are; a null author and the anonymous user equal nobody. *)
Definition is_user (author : option Z) (user : RequestUser) : bool :=
  match author, user with
  | Some k, LoggedIn k' _ => bool_decide (k = k')
  | _, _ => false
  end.

Inductive Method := GET | POST.

(** The targets of [redirect] and [reverse_lazy], and the login page of
    [LoginRequiredMixin]. *)
Inductive Url :=
| blog_post_detail (post_id : Z)
| blog_profile (username : string)
| login.

(** Exceptions that no view catches (the client gets a server error). *)
Inductive Exception :=
| AttributeError
| RelatedObjectDoesNotExist
| MultipleObjectsReturned
| ValueError.

(** What a view hands to its template.  The [object_list] of a list view
    is the requested page of its queryset. *)
Inductive Context :=
| DetailContext (object : Z * Post.t) (comments : list (Z * Comment.t))
| IndexContext (object_list : list (Z * Post.t * nat))
| CategoryContext (object_list : list (Z * Post.t * nat)) (category : Z * Category.t)
| ProfileContext (object_list : list (Z * Post.t * nat)) (profile : Z * User.t)
| FormContext (errors : bool).

Inductive Response :=
| TemplateResponse (context : Context)
| Http404
| Redirect (to : Url)
| ServerError (e : Exception).

(** [QuerySet.get] on a lookup that is not the primary key. *)
Inductive GetResult (A : Type) :=
| One (row : Z * A)
| NoRow
| ManyRows.
Arguments One {A} row.
Arguments NoRow {A}.
Arguments ManyRows {A}.

Definition get {A} (P : Z * A → Prop) `{!∀ r, Decision (P r)}
    (table : gmap Z A) : GetResult A :=
  match filter P (all table) with
  | [] => NoRow
  | [r] => One r
  | _ => ManyRows
  end.

Definition set_posts (f : gmap Z Post.t → gmap Z Post.t) (s : Store) : Store :=
  {| users := users s; categories := categories s; locations := locations s;
     posts := f (posts s); comments := comments s |}.

Definition set_comments (f : gmap Z Comment.t → gmap Z Comment.t) (s : Store) : Store :=
  {| users := users s; categories := categories s; locations := locations s;
     posts := posts s; comments := f (comments s) |}.

Definition set_users (f : gmap Z User.t → gmap Z User.t) (s : Store) : Store :=
  {| users := f (users s); categories := categories s; locations := locations s;
     posts := posts s; comments := comments s |}.

(** [LoginRequiredMixin.dispatch] *)
Definition LoginRequiredMixin_dispatch (s : Store) (user : RequestUser)
    (super_dispatch : Store * Response) : Store * Response :=
  if is_authenticated user then super_dispatch else (s, Redirect login).

(** [PostMixin.dispatch] *)
Definition PostMixin_dispatch (s : Store) (user : RequestUser) (post_id : Z)
    (super_dispatch : Store * Response) : Store * Response :=
  match posts s !! post_id with
  | None => (s, Http404)
  | Some post =>
      if negb (is_user (Post.author post) user)
      then (s, Redirect (blog_post_detail post_id))
      else super_dispatch
  end.

(** [CommentMixin.dispatch]: the redirect goes to the [post_id] of the URL. *)
Definition CommentMixin_dispatch (s : Store) (user : RequestUser)
    (post_id comment_id : Z) (super_dispatch : Store * Response)
  : Store * Response :=
  match comments s !! comment_id with
  | None => (s, Http404)
  | Some comment =>
      if negb (is_user (Some (Comment.author comment)) user)
      then (s, Redirect (blog_post_detail post_id))
      else super_dispatch
  end.

(** The [page] parameter of a list request: absent (or empty), a string
    that [int] reads as a number, the string [last], or anything else. *)
Inductive PageParam :=
| NoPage
| PageNumber (number : Z)
| LastPage
| BadPage.

(** [Paginator.num_pages], with no orphans and an empty first page allowed:
    the count divided by the page size, rounded up, and at least 1. *)
Definition Paginator_num_pages (per_page count : nat) : nat :=
  ((Nat.max 1 count + per_page - 1) / per_page)%nat.

(** [Paginator.page]: the slice of that page; [None] is [InvalidPage]. *)
Definition Paginator_page {A} (per_page : nat) (object_list : list A)
    (number : Z) : option (list A) :=
  if bool_decide (number < 1) then None
  else if bool_decide
            (Z.of_nat (Paginator_num_pages per_page (length object_list)) < number)
  then None
  else Some (take per_page
               (drop ((Z.to_nat number - 1) * per_page) object_list)).

(** [MultipleObjectMixin.paginate_queryset]; [None] is [Http404]. *)
Definition paginate_queryset {A} (page_size : nat) (page : PageParam)
    (queryset : list A) : option (list A) :=
  match page with
  | NoPage => Paginator_page page_size queryset 1
  | PageNumber number => Paginator_page page_size queryset number
  | LastPage =>
      Paginator_page page_size queryset
        (Z.of_nat (Paginator_num_pages page_size (length queryset)))
  | BadPage => None
  end.

(** [MultipleObjectMixin.get_context_data]: the queryset is paginated when
    [paginate_by] is set.  [paginate_by = NUMBER_OF_PUBLICATIONS] comes from
    blog/constants.py, which is not among these files, so the views take it
    as a parameter. *)
Definition get_page {A} (paginate_by : nat) (page : PageParam)
    (queryset : list A) : option (list A) :=
  match paginate_by with
  | O => Some queryset
  | S _ => paginate_queryset paginate_by page queryset
  end.

(** [IndexListView].  [queryset = Post.manager.all()] is a class attribute:
    the manager's [get_queryset], and the [timezone.now()] in its filter,
    run once, when views.py is imported.  Each request re-runs that stored
    query on the current store, so the clock argument is the import time. *)
Definition IndexListView (NUMBER_OF_PUBLICATIONS : nat) (s : Store)
    (imported_at : timestamp) (page : PageParam) : Response :=
  match get_page NUMBER_OF_PUBLICATIONS page
          (PostManager_get_queryset s imported_at) with
  | Some object_list => TemplateResponse (IndexContext object_list)
  | None => Http404
  end.

(** [Meta.ordering = ('created_at',)] of [Comment]. *)
Definition older_first (a b : Z * Comment.t) : Prop :=
  Comment.created_at a.2 ≤ Comment.created_at b.2.

#[global] Instance older_first_dec a b : Decision (older_first a b).
Proof. unfold older_first. apply _. Defined.

(** [post.comments]: the reverse side of [Comment.post], in the model's
    default ordering. *)
Definition Post_comments (s : Store) (post_id : Z) : list (Z * Comment.t) :=
  merge_sort older_first
    (filter (λ c, Comment.post c.2 = post_id) (all (comments s))).

(** [PostDetailView.get_context_data]; the blank [CommentForm] carries no
    data. *)
Definition PostDetailView_get_context_data (s : Store) (object : Z * Post.t)
  : Context :=
  DetailContext object (Post_comments s object.1).

(** [DetailView.get]: [get_object] through the default manager, which is
    [objects], the first one declared on [Post]. *)
Definition DetailView_get (s : Store) (post_id : Z) : Response :=
  match posts s !! post_id with
  | Some post => TemplateResponse (PostDetailView_get_context_data s (post_id, post))
  | None => Http404
  end.

(** [post.category.is_published]: the attribute access fails on a null
    category. *)
Definition post_category_is_published (s : Store) (post : Post.t)
  : Exception + bool :=
  match Post.category post with
  | None => inl AttributeError
  | Some k =>
      match categories s !! k with
      | Some c => inr (Category.is_published c)
      | None => inl RelatedObjectDoesNotExist
      end
  end.

(** [PostDetailView.dispatch], for a GET request.  [or] and [and]
    short-circuit from left to right. *)
Definition PostDetailView (s : Store) (now : timestamp) (user : RequestUser)
    (post_id : Z) : Response :=
  match posts s !! post_id with
  | None => Http404
  | Some post =>
      if is_user (Post.author post) user then DetailView_get s post_id
      else if Post.is_published post && bool_decide (Post.pub_date post ≤ now)
      then
        match post_category_is_published s post with
        | inr true => DetailView_get s post_id
        | inr false => Http404
        | inl e => ServerError e
        end
      else Http404
  end.

(** [category__slug=...] *)
Definition category__slug (s : Store) (p : Post.t) : option string :=
  k ← Post.category p; c ← categories s !! k; Some (Category.slug c).

Definition CategoryPostsListView_get_queryset (s : Store) (now : timestamp)
    (category_slug : string) : list (Z * Post.t * nat) :=
  filter (λ r, category__slug s r.1.2 = Some category_slug)
    (PostManager_get_queryset s now).

(** [CategoryPostsListView], for a GET request: [ListView.get] builds the
    queryset; [get_context_data] has it paginated by [super] and then looks
    the category up. *)
Definition CategoryPostsListView (NUMBER_OF_PUBLICATIONS : nat) (s : Store)
    (now : timestamp) (category_slug : string) (page : PageParam) : Response :=
  match get_page NUMBER_OF_PUBLICATIONS page
          (CategoryPostsListView_get_queryset s now category_slug) with
  | None => Http404
  | Some object_list =>
      match get (λ c, Category.slug c.2 = category_slug
                      ∧ Category.is_published c.2 = true) (categories s) with
      | One category => TemplateResponse (CategoryContext object_list category)
      | NoRow => Http404
      | ManyRows => ServerError MultipleObjectsReturned
      end
  end.

(** [author__username=...] *)
Definition author__username (s : Store) (p : Post.t) : option string :=
  k ← Post.author p; u ← users s !! k; Some (User.username u).

(** [ProfileListView.get_queryset] *)
Definition ProfileListView_get_queryset (s : Store) (now : timestamp)
    (user : RequestUser) (username : string) : list (Z * Post.t * nat) :=
  let posts :=
    annotate s
      (order_by_pub_date_desc
         (filter (λ r, author__username s r.2 = Some username) (all (posts s)))) in
  if bool_decide (request_username user ≠ username)
  then filter (λ r, published_filter s now r.1) posts
  else posts.

(** [ProfileListView], for a GET request: the queryset is paginated, then
    [get_context_data] looks the user up. *)
Definition ProfileListView (NUMBER_OF_PUBLICATIONS : nat) (s : Store)
    (now : timestamp) (user : RequestUser) (username : string)
    (page : PageParam) : Response :=
  match get_page NUMBER_OF_PUBLICATIONS page
          (ProfileListView_get_queryset s now user username) with
  | None => Http404
  | Some object_list =>
      match get (λ u, User.username u.2 = username) (users s) with
      | One row => TemplateResponse (ProfileContext object_list row)
      | NoRow => Http404
      | ManyRows => ServerError MultipleObjectsReturned
      end
  end.

(** [ProfileReverseMixin.get_success_url] *)
Definition ProfileReverseMixin_get_success_url (user : RequestUser) : Url :=
  blog_profile (request_username user).

(** [PostReverseMixin.get_success_url] *)
Definition PostReverseMixin_get_success_url (post_id : Z) : Url :=
  blog_post_detail post_id.

(** [ProfileUpdateView].  The class's own [dispatch] runs before
    [LoginRequiredMixin]'s; the anonymous user's [pk] is [None], which no
    row's [id] equals.  [form] is the outcome of [UserForm.is_valid]. *)
Definition ProfileUpdateView (s : Store) (user : RequestUser) (method : Method)
    (form : option UserForm.cleaned_data) : Store * Response :=
  match user with
  | AnonymousUser => (s, Http404)
  | LoggedIn pk _ =>
      match users s !! pk with
      | None => (s, Http404)
      | Some _ =>
          LoginRequiredMixin_dispatch s user
            match method, form with
            | GET, _ => (s, TemplateResponse (FormContext false))
            | POST, None => (s, TemplateResponse (FormContext true))
            | POST, Some d =>
                (set_users (insert pk (UserForm.assign d)) s,
                 Redirect (blog_profile (UserForm.username d)))
            end
      end
  end.

(** [PostCreateView.form_valid]: the author is the requesting user, the
    fields excluded from the form keep the model's defaults
    ([default_is_published] is the default of [PublishedModel.is_published];
    [created_at] is the creation time). *)
Definition PostCreateView_form_valid (default_is_published : bool) (s : Store)
    (now : timestamp) (user : RequestUser) (d : PostForm.cleaned_data)
  : Store * Response :=
  match user with
  | AnonymousUser => (s, ServerError ValueError)
  | LoggedIn pk _ =>
      let instance :=
        {| Post.title := PostForm.title d;
           Post.text := PostForm.text d;
           Post.pub_date := PostForm.pub_date d;
           Post.author := Some pk;
           Post.category := Some (PostForm.category d);
           Post.location := PostForm.location d;
           Post.image := PostForm.image d;
           Post.is_published := default_is_published;
           Post.created_at := now |} in
      (set_posts (insert (new_pk (posts s)) instance) s,
       Redirect (ProfileReverseMixin_get_success_url user))
  end.

(** [PostCreateView].  [form] is the outcome of [PostForm.is_valid]. *)
Definition PostCreateView (default_is_published : bool) (s : Store)
    (now : timestamp) (user : RequestUser) (method : Method)
    (form : option PostForm.cleaned_data) : Store * Response :=
  LoginRequiredMixin_dispatch s user
    match method, form with
    | GET, _ => (s, TemplateResponse (FormContext false))
    | POST, None => (s, TemplateResponse (FormContext true))
    | POST, Some d => PostCreateView_form_valid default_is_published s now user d
    end.

(** [PostUpdateView]: [PostMixin.dispatch], then [LoginRequiredMixin]'s,
    then [UpdateView]. *)
Definition PostUpdateView (s : Store) (user : RequestUser) (method : Method)
    (post_id : Z) (form : option PostForm.cleaned_data) : Store * Response :=
  PostMixin_dispatch s user post_id
    (LoginRequiredMixin_dispatch s user
       match posts s !! post_id with
       | None => (s, Http404)
       | Some object =>
           match method, form with
           | GET, _ => (s, TemplateResponse (FormContext false))
           | POST, None => (s, TemplateResponse (FormContext true))
           | POST, Some d =>
               (set_posts (insert post_id (PostForm.assign d object)) s,
                Redirect (PostReverseMixin_get_success_url post_id))
           end
       end).

(** Deleting a post deletes its comments ([on_delete=models.CASCADE]). *)
Definition Post_delete (post_id : Z) (s : Store) : Store :=
  {| users := users s; categories := categories s; locations := locations s;
     posts := delete post_id (posts s);
     comments := filter (λ c, Comment.post c.2 ≠ post_id) (comments s) |}.

(** [PostDeleteView] *)
Definition PostDeleteView (s : Store) (user : RequestUser) (method : Method)
    (post_id : Z) : Store * Response :=
  PostMixin_dispatch s user post_id
    (LoginRequiredMixin_dispatch s user
       match posts s !! post_id with
       | None => (s, Http404)
       | Some _ =>
           match method with
           | GET => (s, TemplateResponse (FormContext false))
           | POST =>
               (Post_delete post_id s,
                Redirect (ProfileReverseMixin_get_success_url user))
           end
       end).

(** [CommentCreateView.form_valid] *)
Definition CommentCreateView_form_valid (s : Store) (now : timestamp)
    (user : RequestUser) (post_id : Z) (text : str) : Store * Response :=
  match user with
  | AnonymousUser => (s, ServerError ValueError)
  | LoggedIn pk _ =>
      let instance :=
        {| Comment.text := text;
           Comment.post := post_id;
           Comment.created_at := now;
           Comment.author := pk |} in
      (set_comments (insert (new_pk (comments s)) instance) s,
       Redirect (PostReverseMixin_get_success_url post_id))
  end.

(** [CommentCreateView]: its own [dispatch] looks the post up through the
    default manager, then [LoginRequiredMixin], then [CreateView].  [text]
    is the submitted value of the form's only field. *)
Definition CommentCreateView (s : Store) (now : timestamp) (user : RequestUser)
    (method : Method) (post_id : Z) (text : str) : Store * Response :=
  match posts s !! post_id with
  | None => (s, Http404)
  | Some _ =>
      LoginRequiredMixin_dispatch s user
        match method with
        | GET => (s, TemplateResponse (FormContext false))
        | POST =>
            match CommentForm.clean text with
            | None => (s, TemplateResponse (FormContext true))
            | Some text => CommentCreateView_form_valid s now user post_id text
            end
        end
  end.

(** [CommentUpdateView]: [CommentMixin.dispatch], then
    [LoginRequiredMixin]'s, then [UpdateView]. *)
Definition CommentUpdateView (s : Store) (user : RequestUser) (method : Method)
    (post_id comment_id : Z) (text : str) : Store * Response :=
  CommentMixin_dispatch s user post_id comment_id
    (LoginRequiredMixin_dispatch s user
       match comments s !! comment_id with
       | None => (s, Http404)
       | Some object =>
           match method with
           | GET => (s, TemplateResponse (FormContext false))
           | POST =>
               match CommentForm.clean text with
               | None => (s, TemplateResponse (FormContext true))
               | Some text =>
                   (set_comments
                      (insert comment_id
                         {| Comment.text := text;
                            Comment.post := Comment.post object;
                            Comment.created_at := Comment.created_at object;
                            Comment.author := Comment.author object |}) s,
                    Redirect (PostReverseMixin_get_success_url post_id))
               end
           end
       end).

(** [CommentDeleteView] *)
Definition CommentDeleteView (s : Store) (user : RequestUser) (method : Method)
    (post_id comment_id : Z) : Store * Response :=
  CommentMixin_dispatch s user post_id comment_id
    (LoginRequiredMixin_dispatch s user
       match comments s !! comment_id with
       | None => (s, Http404)
       | Some _ =>
           match method with
           | GET => (s, TemplateResponse (FormContext false))
           | POST =>
               (set_comments (delete comment_id) s,
                Redirect (PostReverseMixin_get_success_url post_id))
           end
       end).

(** ** The specification's visibility predicate *)

(** The public-visibility predicate in the words of the specification:
    published, in a published category, and due ([pub_date] at or before the
    current time). *)
Definition spec_publicly_visible (s : Store) (now : timestamp) (p : Post.t) : Prop :=
  Post.is_published p = true
  ∧ (∃ k c, Post.category p = Some k ∧ categories s !! k = Some c
            ∧ Category.is_published c = true)
  ∧ Post.pub_date p ≤ now.

(** ** Store invariants kept by the database *)

(** [slug] is declared [unique=True]. *)
Definition unique_slugs (s : Store) : Prop :=
  ∀ k1 k2 c1 c2,
    categories s !! k1 = Some c1 → categories s !! k2 = Some c2 →
    Category.slug c1 = Category.slug c2 → k1 = k2.

(** Usernames are unique and never empty. *)
Definition unique_usernames (s : Store) : Prop :=
  ∀ k1 k2 u1 u2,
    users s !! k1 = Some u1 → users s !! k2 = Some u2 →
    User.username u1 = User.username u2 → k1 = k2.

Definition usernames_nonempty (s : Store) : Prop :=
  ∀ k u, users s !! k = Some u → User.username u ≠ EmptyString.

(** The foreign key [Comment.post] refers to an existing post. *)
Definition comments_have_posts (s : Store) : Prop :=
  ∀ k c, comments s !! k = Some c → is_Some (posts s !! Comment.post c).

(** A text that does not begin with whitespace. *)
Definition starts_clean (s : str) : Prop :=
  match s with
  | [] => True
  | c :: _ => isspace c = false
  end.

(** Every stored comment text is one the comment form accepts as it is:
    non-empty, stripped, free of null characters, at most 120 characters. *)
Definition comment_texts_clean (s : Store) : Prop :=
  ∀ k c, comments s !! k = Some c →
         CommentForm.clean (Comment.text c) = Some (Comment.text c).

(** A logged-in [request.user] is the stored row of its primary key. *)
Definition user_in_store (s : Store) (user : RequestUser) : Prop :=
  match user with
  | AnonymousUser => True
  | LoggedIn pk u => users s !! pk = Some u
  end.

(** ** A small blog, for the concrete cases *)

Module Example.
Definition alice : User.t :=
  {| User.username := "alice"; User.first_name := "Alice";
     User.last_name := "A"; User.email := "alice@example.com" |}.
Definition bob : User.t :=
  {| User.username := "bob"; User.first_name := "Bob";
     User.last_name := "B"; User.email := "bob@example.com" |}.

Definition travel : Category.t :=
  {| Category.title := "Travel"; Category.description := "Trips";
     Category.slug := "travel"; Category.is_published := true;
     Category.created_at := 0 |}.
Definition drafts : Category.t :=
  {| Category.title := "Drafts"; Category.description := "Hidden";
     Category.slug := "drafts"; Category.is_published := false;
     Category.created_at := 0 |}.

Definition mk_post (title : string) (pub_date : timestamp) (author : Z)
    (category : option Z) (is_published : bool) : Post.t :=
  {| Post.title := title; Post.text := "text"; Post.pub_date := pub_date;
     Post.author := Some author; Post.category := category;
     Post.location := None; Post.image := "";
     Post.is_published := is_published; Post.created_at := 1 |}.

(** Post 1 is due exactly at time 100; post 2 lost its category; post 3 is
    unpublished; post 4 sits in an unpublished category; posts 5 and 7 are
    ordinary, by alice and by bob. *)
Definition post1 := mk_post "Due at 100" 100 1 (Some 1) true.
Definition post2 := mk_post "No category" 50 1 None true.
Definition post3 := mk_post "Unpublished" 10 1 (Some 1) false.
Definition post4 := mk_post "In drafts" 10 1 (Some 2) true.
Definition post5 := mk_post "Alice in Rome" 20 1 (Some 1) true.
Definition post7 := mk_post "Bob in Oslo" 30 2 (Some 1) true.

Definition comment3 : Comment.t :=
  {| Comment.text := (str_of "Nice"); Comment.post := 5;
     Comment.created_at := 40; Comment.author := 1 |}.
Definition comment4 : Comment.t :=
  {| Comment.text := (str_of "First"); Comment.post := 5;
     Comment.created_at := 25; Comment.author := 2 |}.

Definition store : Store :=
  {| users := {[ 1 := alice; 2 := bob ]};
     categories := {[ 1 := travel; 2 := drafts ]};
     locations := ∅;
     posts := {[ 1 := post1; 2 := post2; 3 := post3; 4 := post4;
                 5 := post5; 7 := post7 ]};
     comments := {[ 3 := comment3; 4 := comment4 ]} |}.

Definition form : PostForm.cleaned_data :=
  {| PostForm.title := "New"; PostForm.text := "Body";
     PostForm.pub_date := 500; PostForm.category := 1;
     PostForm.location := None; PostForm.image := "" |}.

(** 120 letters followed by one space: 121 characters. *)
Definition padded_text : str := replicate 120 97%N ++ [32%N].

(** 61 and 121 times the Cyrillic letter U+044F. *)
Definition cyrillic_61 : str := replicate 61 1103%N.
Definition cyrillic_121 : str := replicate 121 1103%N.

(** The page size used in the concrete cases. *)
Definition NUMBER_OF_PUBLICATIONS : nat := 10.
End Example.

(** Case analysis on a lookup in a map written out with its keys. *)
Ltac example_lookup :=
  repeat match goal with
    | H : <[_:=_]> _ !! _ = Some _ |- _ =>
        apply lookup_insert_Some in H as [[<- <-]|[? H]]
    | H : {[_ := _]} !! _ = Some _ |- _ =>
        apply lookup_singleton_Some in H as [<- <-]
    | H : ∅ !! _ = Some _ |- _ => by rewrite lookup_empty in H
    end.

(** * Properties *)

(** ** Querysets: membership, order, annotation *)

#[global] Instance newer_first_trans : Transitive newer_first.
Proof. unfold newer_first. intros a b c ??. lia. Qed.

#[global] Instance newer_first_total : Total newer_first.
Proof. unfold newer_first. intros a b. lia. Qed.

#[global] Instance older_first_trans : Transitive older_first.
Proof. unfold older_first. intros a b c ??. lia. Qed.

#[global] Instance older_first_total : Total older_first.
Proof. unfold older_first. intros a b. lia. Qed.

Lemma elem_of_all {A} (table : gmap Z A) k x :
  (k, x) ∈ all table ↔ table !! k = Some x.
Proof. apply elem_of_map_to_list. Qed.

Lemma NoDup_all {A} (table : gmap Z A) : NoDup (all table).
Proof. apply NoDup_map_to_list. Qed.

Lemma elem_of_order_by_pub_date_desc l r :
  r ∈ order_by_pub_date_desc l ↔ r ∈ l.
Proof. unfold order_by_pub_date_desc. by rewrite merge_sort_Permutation. Qed.

Lemma order_by_pub_date_desc_sorted l :
  StronglySorted newer_first (order_by_pub_date_desc l).
Proof. apply StronglySorted_merge_sort; apply _. Qed.

Lemma annotate_fst s l : (annotate s l).*1 = l.
Proof.
  unfold annotate. induction l as [|r l IH]; [done|].
  rewrite !fmap_cons. simpl. by rewrite IH.
Qed.

Lemma elem_of_annotate s l r n :
  (r, n) ∈ annotate s l ↔ r ∈ l ∧ n = Count_comments s r.1.
Proof.
  unfold annotate. rewrite list_elem_of_fmap. split.
  - intros (r' & [= -> ->] & ?). done.
  - intros [? ->]. by exists r.
Qed.

(** Filtering an annotated queryset keeps its order. *)
Lemma StronglySorted_fst_filter {A B} (R : relation A) (Q : A * B → Prop)
    `{!∀ x, Decision (Q x)} (l : list (A * B)) :
  StronglySorted R l.*1 → StronglySorted R (filter Q l).*1.
Proof.
  induction l as [|x l IH]; [done|].
  rewrite fmap_cons. intros [Hx Hl]%StronglySorted_cons.
  rewrite filter_cons. destruct (decide (Q x)); [|by apply IH].
  rewrite fmap_cons. apply StronglySorted_cons. split; [|by apply IH].
  rewrite Forall_forall in Hx. apply Forall_forall.
  intros y (z & -> & [_ Hz]%list_elem_of_filter)%list_elem_of_fmap.
  apply Hx, list_elem_of_fmap. by exists z.
Qed.

(** *** Pages *)

Lemma Paginator_num_pages_pos per_page count :
  (0 < per_page)%nat → (1 ≤ Paginator_num_pages per_page count)%nat.
Proof.
  intros Hpos. unfold Paginator_num_pages.
  apply Nat.div_str_pos. lia.
Qed.

(** A page is a slice of the queryset: it keeps its order and adds nothing. *)
Lemma get_page_sublist {A} paginate_by page (queryset object_list : list A) :
  get_page paginate_by page queryset = Some object_list →
  object_list `sublist_of` queryset.
Proof.
  assert (Hpage : ∀ per_page number,
            Paginator_page per_page queryset number = Some object_list →
            object_list `sublist_of` queryset).
  { intros per_page number. unfold Paginator_page.
    repeat case_bool_decide; [done..|]. intros [= <-].
    etrans; [apply sublist_take|apply sublist_drop]. }
  unfold get_page, paginate_queryset.
  destruct paginate_by; [by intros [= ->]|].
  destruct page; eauto. done.
Qed.

Lemma elem_of_get_page {A} paginate_by page (queryset object_list : list A) x :
  get_page paginate_by page queryset = Some object_list →
  x ∈ object_list → x ∈ queryset.
Proof.
  intros Hpage%get_page_sublist. by apply sublist_subseteq.
Qed.

(** A request without a page parameter gets the first page, whatever the
    queryset holds. *)
Lemma get_page_NoPage {A} paginate_by (queryset : list A) :
  get_page paginate_by NoPage queryset
  = Some (match paginate_by with
          | O => queryset
          | S _ => take paginate_by queryset
          end).
Proof.
  destruct paginate_by as [|n]; [done|].
  unfold get_page, paginate_queryset, Paginator_page.
  pose proof (Paginator_num_pages_pos (S n) (length queryset)).
  rewrite bool_decide_false by lia. rewrite bool_decide_false by lia.
  done.
Qed.

(** Page numbers below 1 and parameters that are no number are NotFound. *)
Lemma get_page_invalid {A} paginate_by page (queryset : list A) :
  (0 < paginate_by)%nat →
  page = BadPage ∨ (∃ number, page = PageNumber number ∧ number < 1) →
  get_page paginate_by page queryset = None.
Proof.
  intros Hpos Hbad. destruct paginate_by as [|n]; [lia|].
  destruct Hbad as [->|(number & -> & Hlow)]; [done|].
  unfold get_page, paginate_queryset, Paginator_page.
  by rewrite bool_decide_true.
Qed.

(** The pages lose nothing: every row of the queryset is on some page. *)
Lemma get_page_covers {A} paginate_by (queryset : list A) x :
  x ∈ queryset →
  ∃ page object_list,
    get_page paginate_by page queryset = Some object_list ∧ x ∈ object_list.
Proof.
  intros [i Hi]%list_elem_of_lookup.
  destruct paginate_by as [|n].
  { exists NoPage, queryset. split; [done|]. by eapply list_elem_of_lookup_2. }
  set (per_page := S n).
  pose proof (lookup_lt_Some _ _ _ Hi) as Hlt.
  pose proof (Nat.div_mod_eq i per_page) as Hdiv.
  pose proof (Nat.mod_upper_bound i per_page ltac:(done)) as Hmod.
  assert (Hpages : (i / per_page + 1
                    ≤ Paginator_num_pages per_page (length queryset))%nat).
  { unfold Paginator_num_pages.
    replace (i / per_page + 1)%nat with ((i + 1 * per_page) / per_page)%nat
      by (rewrite Nat.div_add by done; lia).
    apply Nat.Div0.div_le_mono. lia. }
  exists (PageNumber (Z.of_nat (i / per_page + 1))). eexists. split.
  - unfold get_page, paginate_queryset, Paginator_page. fold per_page.
    rewrite bool_decide_false by lia. rewrite bool_decide_false by lia.
    done.
  - apply (list_elem_of_lookup_2 _ (i mod per_page)).
    rewrite lookup_take_lt by done. rewrite lookup_drop, Nat2Z.id.
    replace (i / per_page + 1 - 1)%nat with (i / per_page)%nat by lia.
    rewrite (Nat.mul_comm (i / per_page) per_page), <- Hdiv.
    done.
Qed.

Lemma StronglySorted_sublist {A} (R : relation A) (l1 l2 : list A) :
  l1 `sublist_of` l2 → StronglySorted R l2 → StronglySorted R l1.
Proof.
  induction 1 as [|x l1 l2 Hsub IH|x l1 l2 Hsub IH].
  - done.
  - intros [Hx Hl2]%StronglySorted_cons. apply StronglySorted_cons.
    split; [|by apply IH].
    rewrite Forall_forall in Hx. apply Forall_forall.
    intros y Hy. apply Hx. by apply (sublist_subseteq _ _ Hsub).
  - intros [_ Hl2]%StronglySorted_cons. by apply IH.
Qed.

(** Membership in the queryset of [Post.manager]. *)
Lemma elem_of_PostManager_get_queryset s now k p n :
  (k, p, n) ∈ PostManager_get_queryset s now ↔
    posts s !! k = Some p
    ∧ Post.is_published p = true
    ∧ category__is_published s p = true
    ∧ Post.pub_date p < now
    ∧ n = Count_comments s k.
Proof.
  unfold PostManager_get_queryset.
  rewrite elem_of_annotate, elem_of_order_by_pub_date_desc,
    list_elem_of_filter, elem_of_all.
  unfold published_filter. simpl.
  rewrite !andb_True, bool_decide_spec, !Is_true_true. tauto.
Qed.

(** Every listed post satisfies the specification's predicate. *)
Lemma PostManager_get_queryset_visible s now k p n :
  (k, p, n) ∈ PostManager_get_queryset s now → spec_publicly_visible s now p.
Proof.
  intros (_ & Hpub & Hcat & Hdue & _)%elem_of_PostManager_get_queryset.
  split; [done|]. split; [|lia].
  unfold category__is_published in Hcat.
  destruct (Post.category p) as [kc|]; [|done].
  destruct (categories s !! kc) as [c|] eqn:Hc; [|done].
  by exists kc, c.
Qed.

Lemma PostManager_get_queryset_sorted s now :
  StronglySorted newer_first (PostManager_get_queryset s now).*1.
Proof.
  unfold PostManager_get_queryset. rewrite annotate_fst.
  apply order_by_pub_date_desc_sorted.
Qed.

(** ** The public listing *)

(** C1: the listing's filter is [pub_date__lt], so a published post in a
    published category that is due exactly now satisfies the specification's
    predicate and is in no public listing, although the detail view (which
    tests [pub_date <= now]) serves it to anybody; and the home feed compares
    with the time views.py was imported, so it omits a post that became due
    after that, which the category feed of the same moment lists. *)
Theorem C1_listing_omits_due_posts :
  posts Example.store !! 1 = Some Example.post1
  ∧ spec_publicly_visible Example.store 100 Example.post1
  ∧ (∀ n, (1, Example.post1, n) ∉ PostManager_get_queryset Example.store 100)
  ∧ PostDetailView Example.store 100 AnonymousUser 1
    = TemplateResponse (DetailContext (1, Example.post1) [])
  ∧ spec_publicly_visible Example.store 200 Example.post1
  ∧ IndexListView Example.NUMBER_OF_PUBLICATIONS Example.store 60 NoPage
    = TemplateResponse
        (IndexContext [(7, Example.post7, 0%nat); (5, Example.post5, 2%nat)])
  ∧ (1, Example.post1, 0%nat)
    ∈ CategoryPostsListView_get_queryset Example.store 200 "travel".
Proof.
  assert (Hvis : ∀ now, 100 ≤ now →
            spec_publicly_visible Example.store now Example.post1).
  { intros now Hnow. split; [done|]. split; [|done].
    exists 1, Example.travel. done. }
  split; [done|]. split; [by apply Hvis|]. split.
  { intros n (_ & _ & _ & Hlt & _)%elem_of_PostManager_get_queryset.
    simpl in Hlt. lia. }
  split; [by vm_compute|]. split; [by apply Hvis|].
  split; [by vm_compute|].
  unfold CategoryPostsListView_get_queryset.
  apply list_elem_of_filter. split; [done|].
  apply elem_of_PostManager_get_queryset. done.
Qed.

(** ** The detail view *)

(** The author is served whatever the publication state. *)
Lemma PostDetailView_author s now user post_id post :
  posts s !! post_id = Some post →
  is_user (Post.author post) user = true →
  PostDetailView s now user post_id
  = TemplateResponse (DetailContext (post_id, post) (Post_comments s post_id)).
Proof.
  intros Hpost Hauthor. unfold PostDetailView, DetailView_get.
  by rewrite Hpost, Hauthor.
Qed.

(** Anybody is served a published, due post of a published category. *)
Lemma PostDetailView_visible s now user post_id post k c :
  posts s !! post_id = Some post →
  Post.is_published post = true →
  Post.pub_date post ≤ now →
  Post.category post = Some k →
  categories s !! k = Some c →
  Category.is_published c = true →
  PostDetailView s now user post_id
  = TemplateResponse (DetailContext (post_id, post) (Post_comments s post_id)).
Proof.
  intros Hpost Hpub Hdue Hcat Hc Hcpub.
  unfold PostDetailView, DetailView_get, post_category_is_published.
  rewrite Hpost, Hpub, Hcat, Hc, Hcpub, bool_decide_true by done.
  by destruct (is_user _ _).
Qed.

(** Somebody else gets NotFound for an unpublished or future post (whatever
    its category, null included) and for a post of an unpublished category. *)
Lemma PostDetailView_hidden s now user post_id post :
  posts s !! post_id = Some post →
  is_user (Post.author post) user = false →
  Post.is_published post = false
  ∨ now < Post.pub_date post
  ∨ (∃ k c, Post.category post = Some k ∧ categories s !! k = Some c
            ∧ Category.is_published c = false) →
  PostDetailView s now user post_id = Http404.
Proof.
  intros Hpost Hauthor Hhidden.
  unfold PostDetailView, post_category_is_published.
  rewrite Hpost, Hauthor.
  destruct Hhidden as [Hpub | [Hfuture | (k & c & Hcat & Hc & Hcpub)]].
  - by rewrite Hpub.
  - rewrite bool_decide_false by lia. by rewrite andb_false_r.
  - rewrite Hcat, Hc, Hcpub. by destruct (_ && _).
Qed.

Lemma PostDetailView_missing s now user post_id :
  posts s !! post_id = None → PostDetailView s now user post_id = Http404.
Proof. intros Hpost. unfold PostDetailView. by rewrite Hpost. Qed.

(** A published, due post without a category: for anybody but its author the
    view neither succeeds nor answers NotFound. *)
Lemma PostDetailView_null_category s now user post_id post :
  posts s !! post_id = Some post →
  is_user (Post.author post) user = false →
  Post.is_published post = true →
  Post.pub_date post ≤ now →
  Post.category post = None →
  PostDetailView s now user post_id = ServerError AttributeError.
Proof.
  intros Hpost Hauthor Hpub Hdue Hcat.
  unfold PostDetailView, post_category_is_published.
  by rewrite Hpost, Hauthor, Hpub, Hcat, bool_decide_true.
Qed.

(** C2: post 2 of the example is published, due and has no category (the
    predicate "category published if present" holds); an anonymous
    viewer's request ends in an uncaught [AttributeError], neither the page
    nor NotFound, while the author gets the page. *)
Theorem C2_detail_null_category_server_error :
  posts Example.store !! 2 = Some Example.post2
  ∧ Post.is_published Example.post2 = true
  ∧ Post.pub_date Example.post2 ≤ 100
  ∧ Post.category Example.post2 = None
  ∧ PostDetailView Example.store 100 AnonymousUser 2 = ServerError AttributeError
  ∧ PostDetailView Example.store 100 (LoggedIn 2 Example.bob) 2
    = ServerError AttributeError
  ∧ PostDetailView Example.store 100 (LoggedIn 1 Example.alice) 2
    = TemplateResponse (DetailContext (2, Example.post2) []).
Proof.
  split; [done|]. split; [done|]. split; [done|]. split; [done|].
  split; [|split].
  - by apply (PostDetailView_null_category _ _ _ _ Example.post2).
  - by apply (PostDetailView_null_category _ _ _ _ Example.post2).
  - by apply PostDetailView_author.
Qed.

(** ** The ownership guard *)

Lemma PostMixin_dispatch_denied s user post_id post super_dispatch :
  posts s !! post_id = Some post →
  is_user (Post.author post) user = false →
  PostMixin_dispatch s user post_id super_dispatch
  = (s, Redirect (blog_post_detail post_id)).
Proof. intros Hpost Hauthor. unfold PostMixin_dispatch. by rewrite Hpost, Hauthor. Qed.

Lemma CommentMixin_dispatch_denied s user post_id comment_id comment super_dispatch :
  comments s !! comment_id = Some comment →
  is_user (Some (Comment.author comment)) user = false →
  CommentMixin_dispatch s user post_id comment_id super_dispatch
  = (s, Redirect (blog_post_detail post_id)).
Proof.
  intros Hcomment Hauthor. unfold CommentMixin_dispatch.
  by rewrite Hcomment, Hauthor.
Qed.

(** The guard does let the author through: an update by the author changes
    the stored post. *)
Lemma PostUpdateView_author s pk u post_id post d :
  posts s !! post_id = Some post →
  Post.author post = Some pk →
  PostUpdateView s (LoggedIn pk u) POST post_id (Some d)
  = (set_posts (insert post_id (PostForm.assign d post)) s,
     Redirect (blog_post_detail post_id)).
Proof.
  intros Hpost Hauthor.
  unfold PostUpdateView, PostMixin_dispatch, LoginRequiredMixin_dispatch.
  rewrite Hpost, Hauthor. simpl. by rewrite bool_decide_true.
Qed.

(** C3, as amended: an update or delete of a post or comment by anybody but
    its author changes nothing and redirects to the detail view of the post
    named by the [post_id] of the URL: for a post that is the target itself,
    for a comment it is the comment's post when the URL carries that post's
    id. *)
Theorem C3_denied_mutation_redirects_to_url_post
    (s : Store) (user : RequestUser) (method : Method) (post_id comment_id : Z)
    (form : option PostForm.cleaned_data) (text : str) :
  (∀ post,
     posts s !! post_id = Some post →
     is_user (Post.author post) user = false →
     PostUpdateView s user method post_id form
     = (s, Redirect (blog_post_detail post_id))
     ∧ PostDeleteView s user method post_id
       = (s, Redirect (blog_post_detail post_id)))
  ∧ (∀ comment,
       comments s !! comment_id = Some comment →
       is_user (Some (Comment.author comment)) user = false →
       CommentUpdateView s user method post_id comment_id text
       = (s, Redirect (blog_post_detail post_id))
       ∧ CommentDeleteView s user method post_id comment_id
         = (s, Redirect (blog_post_detail post_id))
       ∧ (post_id = Comment.post comment →
          (CommentUpdateView s user method post_id comment_id text).2
          = Redirect (blog_post_detail (Comment.post comment))
          ∧ (CommentDeleteView s user method post_id comment_id).2
            = Redirect (blog_post_detail (Comment.post comment)))).
Proof.
  split.
  - intros post Hpost Hauthor.
    unfold PostUpdateView, PostDeleteView.
    by rewrite !(PostMixin_dispatch_denied _ _ _ post).
  - intros comment Hcomment Hauthor.
    unfold CommentUpdateView, CommentDeleteView.
    rewrite !(CommentMixin_dispatch_denied _ _ _ _ comment) by done.
    split; [done|]. split; [done|]. by intros ->.
Qed.

Lemma C3_denied_mutation_witness :
  (PostUpdateView Example.store (LoggedIn 2 Example.bob) POST 5 (Some Example.form)
   = (Example.store, Redirect (blog_post_detail 5))
   ∧ PostDeleteView Example.store (LoggedIn 2 Example.bob) POST 5
     = (Example.store, Redirect (blog_post_detail 5)))
  ∧ (CommentUpdateView Example.store (LoggedIn 2 Example.bob) POST 5 3 (str_of "Edited")
     = (Example.store, Redirect (blog_post_detail 5))
     ∧ CommentDeleteView Example.store (LoggedIn 2 Example.bob) POST 5 3
       = (Example.store, Redirect (blog_post_detail 5))).
Proof.
  pose proof (C3_denied_mutation_redirects_to_url_post Example.store
                (LoggedIn 2 Example.bob) POST 5 3 (Some Example.form) (str_of "Edited"))
    as [Hpost Hcomment].
  split.
  - apply (Hpost Example.post5); reflexivity.
  - destruct (Hcomment Example.comment3) as (Hupdate & Hdelete & _);
      [reflexivity | reflexivity |].
    split; [exact Hupdate | exact Hdelete].
Defined.

(** C3, as stated, fails: bob asks to edit alice's comment 3, which is on
    post 5, under the URL of post 7; he is sent to post 7. *)
Lemma C3_redirect_not_to_comments_post :
  ¬ (∀ (s : Store) (user : RequestUser) (method : Method)
       (post_id comment_id : Z) (text : str) (comment : Comment.t),
       comments s !! comment_id = Some comment →
       is_user (Some (Comment.author comment)) user = false →
       CommentUpdateView s user method post_id comment_id text
       = (s, Redirect (blog_post_detail (Comment.post comment)))).
Proof.
  intros Hall.
  specialize (Hall Example.store (LoggedIn 2 Example.bob) POST 7 3 (str_of "Edited")
                Example.comment3 eq_refl eq_refl).
  vm_compute in Hall. discriminate Hall.
Qed.

(** ** Unauthenticated requests *)

(** An anonymous request to edit or delete a post or a comment never reaches
    the login check: it ends in NotFound or at the post's detail view. *)
Lemma anonymous_guarded_views_never_login s method post_id comment_id form text :
  (PostUpdateView s AnonymousUser method post_id form).2 ≠ Redirect login
  ∧ (PostDeleteView s AnonymousUser method post_id).2 ≠ Redirect login
  ∧ (CommentUpdateView s AnonymousUser method post_id comment_id text).2
    ≠ Redirect login
  ∧ (CommentDeleteView s AnonymousUser method post_id comment_id).2
    ≠ Redirect login.
Proof.
  unfold PostUpdateView, PostDeleteView, CommentUpdateView, CommentDeleteView,
    PostMixin_dispatch, CommentMixin_dispatch.
  destruct (posts s !! post_id) as [post|], (comments s !! comment_id) as [c|];
    simpl; try destruct (Post.author post); done.
Qed.

Lemma anonymous_ProfileUpdateView s method form :
  ProfileUpdateView s AnonymousUser method form = (s, Http404).
Proof. done. Qed.

(** The views without a guard of their own in front do send the anonymous
    user to the login page. *)
Lemma anonymous_PostCreateView dflt s now method form :
  PostCreateView dflt s now AnonymousUser method form = (s, Redirect login).
Proof. done. Qed.

Lemma anonymous_CommentCreateView s now method post_id text :
  CommentCreateView s now AnonymousUser method post_id text
  = (s, match posts s !! post_id with
        | Some _ => Redirect login
        | None => Http404
        end).
Proof. unfold CommentCreateView. by destruct (posts s !! post_id). Qed.

(** C4: anonymous requests against the example blog.  Editing or deleting
    post 5 and editing or deleting comment 3 redirect to the detail view of
    post 5, updating the profile and commenting on the missing post 9 answer
    NotFound; only creating a post and commenting on an existing post reach
    the login page. *)
Theorem C4_anonymous_requests_not_sent_to_login :
  PostUpdateView Example.store AnonymousUser POST 5 (Some Example.form)
  = (Example.store, Redirect (blog_post_detail 5))
  ∧ PostDeleteView Example.store AnonymousUser POST 5
    = (Example.store, Redirect (blog_post_detail 5))
  ∧ CommentUpdateView Example.store AnonymousUser POST 5 3 (str_of "Edited")
    = (Example.store, Redirect (blog_post_detail 5))
  ∧ CommentDeleteView Example.store AnonymousUser POST 5 3
    = (Example.store, Redirect (blog_post_detail 5))
  ∧ ProfileUpdateView Example.store AnonymousUser POST None
    = (Example.store, Http404)
  ∧ CommentCreateView Example.store 100 AnonymousUser POST 9 (str_of "Hello")
    = (Example.store, Http404)
  ∧ CommentCreateView Example.store 100 AnonymousUser POST 5 (str_of "Hello")
    = (Example.store, Redirect login)
  ∧ PostCreateView true Example.store 100 AnonymousUser POST (Some Example.form)
    = (Example.store, Redirect login).
Proof. repeat split. Qed.

(** ** Lookups by a unique field *)

Lemma get_NoRow {A} (P : Z * A → Prop) `{!∀ r, Decision (P r)} (table : gmap Z A) :
  (∀ k x, table !! k = Some x → ¬ P (k, x)) → get P table = NoRow.
Proof.
  intros Hnone. unfold get.
  destruct (filter P (all table)) as [|r l] eqn:Hfilter; [done|].
  assert (Hr : r ∈ filter P (all table)) by (rewrite Hfilter; left).
  apply list_elem_of_filter in Hr as [HP Hr]. destruct r as [k x].
  apply elem_of_all in Hr. by destruct (Hnone k x).
Qed.

Lemma get_One {A} (P : Z * A → Prop) `{!∀ r, Decision (P r)} (table : gmap Z A) k x :
  table !! k = Some x → P (k, x) →
  (∀ k' x', table !! k' = Some x' → P (k', x') → k' = k) →
  get P table = One (k, x).
Proof.
  intros Hk HP Hunique. unfold get.
  assert (Hin : ∀ r, r ∈ filter P (all table) → r = (k, x)).
  { intros [k' x'] [HP' Hr]%list_elem_of_filter. apply elem_of_all in Hr.
    assert (k' = k) as -> by eauto. congruence. }
  assert (Hnodup : NoDup (filter P (all table)))
    by apply NoDup_filter, NoDup_all.
  assert (Hmem : (k, x) ∈ filter P (all table)).
  { apply list_elem_of_filter. split; [done|]. by apply elem_of_all. }
  destruct (filter P (all table)) as [|a [|b l]].
  - by apply elem_of_nil in Hmem.
  - by rewrite (Hin a) by left.
  - exfalso. apply NoDup_cons in Hnodup as [Hab _]. apply Hab.
    rewrite (Hin a), (Hin b); [left | right; left | left].
Qed.

(** ** The category feed *)

(** What the category feed does, page by page: NotFound when the page is
    invalid, when no category has the slug or when the one that has it is
    unpublished; otherwise the requested page of the manager's queryset
    restricted to that category. *)
Lemma CategoryPostsListView_spec
    (page_size : nat) (s : Store) (now : timestamp) (category_slug : string)
    (page : PageParam) (Hunique : unique_slugs s) :
  ((∀ k c, categories s !! k = Some c →
           Category.slug c = category_slug → Category.is_published c = false) →
   CategoryPostsListView page_size s now category_slug page = Http404)
  ∧ (∀ k c,
       categories s !! k = Some c →
       Category.slug c = category_slug →
       Category.is_published c = true →
       CategoryPostsListView page_size s now category_slug page
       = match get_page page_size page
                 (CategoryPostsListView_get_queryset s now category_slug) with
         | Some object_list =>
             TemplateResponse (CategoryContext object_list (k, c))
         | None => Http404
         end
       ∧ (∀ r, r ∈ CategoryPostsListView_get_queryset s now category_slug ↔
               r ∈ PostManager_get_queryset s now
               ∧ Post.category r.1.2 = Some k)
       ∧ (∀ r, r ∈ CategoryPostsListView_get_queryset s now category_slug →
               spec_publicly_visible s now r.1.2)
       ∧ StronglySorted newer_first
           (CategoryPostsListView_get_queryset s now category_slug).*1).
Proof.
  split.
  - intros Hnone. unfold CategoryPostsListView.
    destruct (get_page _ _ _); [|done].
    rewrite get_NoRow; [done|].
    intros k c Hc [Hslug Hpub]. simpl in *.
    rewrite (Hnone k c Hc Hslug) in Hpub. discriminate.
  - intros k c Hc Hslug Hpub. split; [|split; [|split]].
    + unfold CategoryPostsListView.
      destruct (get_page _ _ _); [|done].
      rewrite (get_One _ _ k c); [done..|].
      intros k' c' Hc' [Hslug' _]. simpl in *.
      apply (Hunique k' k c' c); congruence.
    + intros [[kp p] n]. unfold CategoryPostsListView_get_queryset.
      rewrite list_elem_of_filter. simpl.
      unfold category__slug.
      split.
      * intros [Hcat Hin]. split; [done|].
        destruct (Post.category p) as [k'|]; [|done]. simpl in Hcat.
        destruct (categories s !! k') as [c'|] eqn:Hc'; [|done].
        simpl in Hcat. f_equal. apply (Hunique k' k c' c); congruence.
      * intros [Hin Hcat]. split; [|done].
        rewrite Hcat. simpl. rewrite Hc. simpl. by rewrite Hslug.
    + intros [[kp p] n] [_ Hin]%list_elem_of_filter.
      by apply (PostManager_get_queryset_visible s now kp p n).
    + unfold CategoryPostsListView_get_queryset.
      apply StronglySorted_fst_filter, PostManager_get_queryset_sorted.
Qed.

(** C5: the NotFound half holds on the example (an unpublished category and
    a slug nobody has are NotFound), the other half does not: post 1 belongs
    to the published category "travel" and satisfies the visibility
    predicate at time 100, when it is due, yet the feed of "travel" at that
    time renders without it, because the feed is the manager's queryset with
    its [pub_date__lt] filter. *)
Theorem C5_category_feed_omits_post_due_now :
  CategoryPostsListView Example.NUMBER_OF_PUBLICATIONS Example.store 100
    "drafts" NoPage = Http404
  ∧ CategoryPostsListView Example.NUMBER_OF_PUBLICATIONS Example.store 100
      "cooking" NoPage = Http404
  ∧ posts Example.store !! 1 = Some Example.post1
  ∧ Post.category Example.post1 = Some 1
  ∧ categories Example.store !! 1 = Some Example.travel
  ∧ Category.slug Example.travel = "travel"
  ∧ Category.is_published Example.travel = true
  ∧ spec_publicly_visible Example.store 100 Example.post1
  ∧ CategoryPostsListView Example.NUMBER_OF_PUBLICATIONS Example.store 100
      "travel" NoPage
    = TemplateResponse
        (CategoryContext [(7, Example.post7, 0%nat); (5, Example.post5, 2%nat)]
           (1, Example.travel))
  ∧ (∀ n, (1, Example.post1, n)
          ∉ CategoryPostsListView_get_queryset Example.store 100 "travel").
Proof.
  split; [by vm_compute|]. split; [by vm_compute|].
  split; [done|]. split; [done|]. split; [done|]. split; [done|].
  split; [done|]. split.
  { split; [done|]. split; [|done]. by exists 1, Example.travel. }
  split; [by vm_compute|].
  intros n [_ Hin]%list_elem_of_filter.
  apply elem_of_PostManager_get_queryset in Hin as (_ & _ & _ & Hlt & _).
  simpl in Hlt. lia.
Qed.

Lemma Example_unique_slugs : unique_slugs Example.store.
Proof.
  intros k1 k2 c1 c2 H1 H2 Hslug. simpl in H1, H2.
  example_lookup; done.
Qed.

Lemma Example_unique_usernames : unique_usernames Example.store.
Proof.
  intros k1 k2 u1 u2 H1 H2 Hname. simpl in H1, H2.
  example_lookup; done.
Qed.

Lemma Example_usernames_nonempty : usernames_nonempty Example.store.
Proof. intros k u H. simpl in H. example_lookup; done. Qed.

Lemma Example_comments_have_posts : comments_have_posts Example.store.
Proof. intros k c H. simpl in H. example_lookup; by eexists. Qed.

(** ** The profile listing *)

Lemma author__username_owner s pk owner p :
  unique_usernames s →
  users s !! pk = Some owner →
  author__username s p = Some (User.username owner) ↔ Post.author p = Some pk.
Proof.
  intros Hunique Howner. unfold author__username. split.
  - destruct (Post.author p) as [k|]; [|done]. simpl.
    destruct (users s !! k) as [u|] eqn:Hu; [|done]. simpl.
    intros [= Hname]. f_equal. by apply (Hunique k pk u owner).
  - intros ->. simpl. by rewrite Howner.
Qed.

Lemma request_username_owner s viewer pk owner :
  unique_usernames s → usernames_nonempty s →
  user_in_store s viewer → users s !! pk = Some owner →
  request_username viewer = User.username owner ↔ ∃ u, viewer = LoggedIn pk u.
Proof.
  intros Hunique Hnonempty Hviewer Howner. split.
  - destruct viewer as [|k u]; simpl in *.
    + intros Hname. by destruct (Hnonempty pk owner).
    + intros Hname. exists u. f_equal. by apply (Hunique k pk u owner).
  - intros [u ->]. simpl in *. congruence.
Qed.

(** What [ProfileListView.get_queryset] holds: the listing of a user is
    ordered newest first, holds only that user's posts, each with its
    comment count; the owner is shown all of them whatever their publication
    state, anybody else exactly the ones that pass the listing's filter
    ([pub_date] strictly before now), all of which satisfy the public
    visibility predicate. *)
Lemma ProfileListView_get_queryset_spec
    (s : Store) (now : timestamp) (viewer : RequestUser) (pk : Z) (owner : User.t)
    (Hunique : unique_usernames s) (Hnonempty : usernames_nonempty s)
    (Hviewer : user_in_store s viewer) (Howner : users s !! pk = Some owner) :
  let object_list :=
    ProfileListView_get_queryset s now viewer (User.username owner) in
  StronglySorted newer_first object_list.*1
  ∧ (∀ k p n, (k, p, n) ∈ object_list →
              posts s !! k = Some p ∧ Post.author p = Some pk
              ∧ n = Count_comments s k)
  ∧ ((∃ u, viewer = LoggedIn pk u) →
     ∀ k p, posts s !! k = Some p → Post.author p = Some pk →
            (k, p, Count_comments s k) ∈ object_list)
  ∧ ((∀ u, viewer ≠ LoggedIn pk u) →
     ∀ k p n, (k, p, n) ∈ object_list ↔
              posts s !! k = Some p ∧ Post.author p = Some pk
              ∧ Post.is_published p = true
              ∧ category__is_published s p = true
              ∧ Post.pub_date p < now
              ∧ n = Count_comments s k)
  ∧ ((∀ u, viewer ≠ LoggedIn pk u) →
     ∀ k p n, (k, p, n) ∈ object_list → spec_publicly_visible s now p).
Proof.
  pose proof (request_username_owner s viewer pk owner
                Hunique Hnonempty Hviewer Howner) as Hname.
  set (base := annotate s (order_by_pub_date_desc
          (filter (λ r, author__username s r.2 = Some (User.username owner))
             (all (posts s))))).
  assert (Hbase : ∀ k p n, (k, p, n) ∈ base ↔
            posts s !! k = Some p ∧ Post.author p = Some pk
            ∧ n = Count_comments s k).
  { intros k p n. unfold base.
    rewrite elem_of_annotate, elem_of_order_by_pub_date_desc,
      list_elem_of_filter, elem_of_all. simpl.
    rewrite (author__username_owner s pk owner p Hunique Howner). tauto. }
  assert (Hsorted : StronglySorted newer_first base.*1).
  { unfold base. rewrite annotate_fst. apply order_by_pub_date_desc_sorted. }
  assert (Hfiltered : ∀ k p n,
            (k, p, n) ∈ filter (λ r, published_filter s now r.1) base ↔
            posts s !! k = Some p ∧ Post.author p = Some pk
            ∧ Post.is_published p = true
            ∧ category__is_published s p = true
            ∧ Post.pub_date p < now
            ∧ n = Count_comments s k).
  { intros k p n. rewrite list_elem_of_filter, Hbase.
    unfold published_filter. simpl.
    rewrite !andb_True, bool_decide_spec, !Is_true_true. tauto. }
  intros object_list.
  assert (Hobj : object_list =
            if bool_decide (request_username viewer ≠ User.username owner)
            then filter (λ r, published_filter s now r.1) base else base)
    by done.
  clearbody object_list. subst object_list.
  case_bool_decide as Hneq.
  - assert (Hother : ∀ u, viewer ≠ LoggedIn pk u).
    { intros u ->. apply Hneq, Hname. by exists u. }
    split; [by apply StronglySorted_fst_filter|].
    split; [intros k p n Hin; apply Hfiltered in Hin; tauto|].
    split; [intros [u ->]; by destruct (Hother u)|].
    split; [intros _; apply Hfiltered|].
    intros _ k p n (_ & _ & Hpub & Hcat & Hdue & _)%Hfiltered.
    split; [done|]. split; [|lia].
    unfold category__is_published in Hcat.
    destruct (Post.category p) as [kc|]; [|done].
    destruct (categories s !! kc) as [c|] eqn:Hc; [|done].
    by exists kc, c.
  - apply Hname in Hneq as [u ->].
    split; [done|].
    split; [intros k p n Hin; by apply Hbase|].
    split; [intros _ k p Hp Hauthor; by apply Hbase|].
    split; intros Hother; by destruct (Hother u).
Qed.

(** C6: the owner's half holds on the example (alice is shown her
    unpublished post 3 and her post 1), the other half does not: post 1 is
    alice's and satisfies the visibility predicate at time 100, when it is
    due, yet bob and the anonymous visitor are shown alice's profile without
    it, because [ProfileListView.get_queryset] filters with [pub_date__lt]
    as the manager does. *)
Theorem C6_profile_omits_post_due_now :
  (3, Example.post3, 0%nat)
  ∈ ProfileListView_get_queryset Example.store 100
      (LoggedIn 1 Example.alice) "alice"
  ∧ (1, Example.post1, 0%nat)
    ∈ ProfileListView_get_queryset Example.store 100
        (LoggedIn 1 Example.alice) "alice"
  ∧ posts Example.store !! 1 = Some Example.post1
  ∧ Post.author Example.post1 = Some 1
  ∧ users Example.store !! 1 = Some Example.alice
  ∧ spec_publicly_visible Example.store 100 Example.post1
  ∧ ProfileListView Example.NUMBER_OF_PUBLICATIONS Example.store 100
      (LoggedIn 2 Example.bob) "alice" NoPage
    = TemplateResponse
        (ProfileContext [(5, Example.post5, 2%nat)] (1, Example.alice))
  ∧ (∀ n, (1, Example.post1, n)
          ∉ ProfileListView_get_queryset Example.store 100
              (LoggedIn 2 Example.bob) "alice")
  ∧ (∀ n, (1, Example.post1, n)
          ∉ ProfileListView_get_queryset Example.store 100
              AnonymousUser "alice").
Proof.
  assert (Hother : ∀ viewer n,
            user_in_store Example.store viewer →
            (∀ u, viewer ≠ LoggedIn 1 u) →
            (1, Example.post1, n)
            ∉ ProfileListView_get_queryset Example.store 100 viewer "alice").
  { intros viewer n Hviewer Hne Hin.
    destruct (ProfileListView_get_queryset_spec Example.store 100 viewer 1
                Example.alice Example_unique_usernames
                Example_usernames_nonempty Hviewer eq_refl)
      as (_ & _ & _ & Hiff & _).
    apply (Hiff Hne) in Hin as (_ & _ & _ & _ & Hlt & _).
    simpl in Hlt. lia. }
  destruct (ProfileListView_get_queryset_spec Example.store 100
              (LoggedIn 1 Example.alice) 1 Example.alice
              Example_unique_usernames Example_usernames_nonempty
              eq_refl eq_refl)
    as (_ & _ & Hall & _).
  split; [by apply Hall; [eexists| |]|].
  split; [by apply Hall; [eexists| |]|].
  split; [done|]. split; [done|]. split; [done|]. split.
  { split; [done|]. split; [|done]. by exists 1, Example.travel. }
  split; [by vm_compute|]. split.
  - intros n. by apply Hother.
  - intros n. by apply Hother.
Qed.

(** ** The comment thread *)

Lemma elem_of_Post_comments s post_id k c :
  (k, c) ∈ Post_comments s post_id ↔
    comments s !! k = Some c ∧ Comment.post c = post_id.
Proof.
  unfold Post_comments.
  rewrite merge_sort_Permutation, list_elem_of_filter, elem_of_all. simpl. tauto.
Qed.

Lemma Post_comments_sorted s post_id :
  StronglySorted older_first (Post_comments s post_id).
Proof. apply StronglySorted_merge_sort; apply _. Qed.

(** Whenever the detail view renders, it renders the requested post with
    that post's comments. *)
Lemma PostDetailView_renders s now user post_id object thread :
  PostDetailView s now user post_id
  = TemplateResponse (DetailContext object thread) →
  posts s !! post_id = Some object.2 ∧ object.1 = post_id
  ∧ thread = Post_comments s post_id.
Proof.
  unfold PostDetailView, DetailView_get, PostDetailView_get_context_data.
  destruct (posts s !! post_id) as [post|]; [|done].
  assert (Hget : TemplateResponse
                   (DetailContext (post_id, post) (Post_comments s (post_id, post).1))
                 = TemplateResponse (DetailContext object thread) →
                 Some post = Some object.2 ∧ object.1 = post_id
                 ∧ thread = Post_comments s post_id).
  { intros [= <- <-]. done. }
  destruct (is_user _ _); [done|].
  destruct (_ && _); [|done].
  destruct (post_category_is_published s post) as [e|[|]]; done.
Qed.

(** C7: the comment thread that the detail view of a post renders is in
    non-decreasing order of creation time, and it is the set of that post's
    comments, whatever they are. *)
Theorem C7_comment_thread_ascending
    (s : Store) (now : timestamp) (user : RequestUser) (post_id : Z)
    (object : Z * Post.t) (thread : list (Z * Comment.t))
    (Hrenders : PostDetailView s now user post_id
                = TemplateResponse (DetailContext object thread)) :
  StronglySorted (λ a b, Comment.created_at a.2 ≤ Comment.created_at b.2) thread
  ∧ (∀ i j a b, (i ≤ j)%nat → thread !! i = Some a → thread !! j = Some b →
                Comment.created_at a.2 ≤ Comment.created_at b.2)
  ∧ (∀ k c, (k, c) ∈ thread ↔
            comments s !! k = Some c ∧ Comment.post c = post_id).
Proof.
  apply PostDetailView_renders in Hrenders as (_ & _ & ->).
  pose proof (Post_comments_sorted s post_id) as Hsorted.
  split; [exact Hsorted|]. split; [|apply elem_of_Post_comments].
  intros i j a b Hij Ha Hb.
  destruct (decide (i = j)) as [->|Hne]; [by simplify_eq|].
  assert (i < j)%nat as Hlt by lia. clear Hij Hne.
  revert i j Hlt Ha Hb.
  induction Hsorted as [|x l Hl IH Hx]; intros i j Hlt Ha Hb; [done|].
  destruct j as [|j]; [lia|]. simpl in Hb.
  destruct i as [|i]; simpl in Ha.
  - simplify_eq. rewrite Forall_forall in Hx.
    apply (Hx b). by eapply list_elem_of_lookup_2.
  - apply (IH i j); [lia|done..].
Qed.

Lemma C7_comment_thread_witness :
  PostDetailView Example.store 100 AnonymousUser 5
  = TemplateResponse
      (DetailContext (5, Example.post5)
         [(4, Example.comment4); (3, Example.comment3)])
  ∧ StronglySorted (λ a b, Comment.created_at a.2 ≤ Comment.created_at b.2)
      [(4, Example.comment4); (3, Example.comment3)].
Proof.
  assert (Hview : PostDetailView Example.store 100 AnonymousUser 5
                  = TemplateResponse
                      (DetailContext (5, Example.post5)
                         [(4, Example.comment4); (3, Example.comment3)]))
    by (vm_compute; reflexivity).
  split; [exact Hview|].
  exact (proj1 (C7_comment_thread_ascending Example.store 100 AnonymousUser 5
                  _ _ Hview)).
Defined.

(** ** Comment creation *)

Lemma CharField_clean_too_long required limit value :
  (limit < length (strip value))%nat →
  CharField_clean required (Some limit) value = None.
Proof.
  intros Hlong. unfold CharField_clean.
  destruct (strip value) as [|c rest] eqn:Hstrip; [simpl in Hlong; lia|].
  rewrite bool_decide_false by done. by rewrite bool_decide_true.
Qed.

(** A cleaned value is the stripped submission and respects the limit. *)
Lemma CharField_clean_Some required limit value cleaned :
  CharField_clean required (Some limit) value = Some cleaned →
  cleaned = strip value ∧ (length cleaned ≤ limit)%nat.
Proof.
  unfold CharField_clean. intros Hclean.
  case_bool_decide as Hempty.
  - destruct required; [done|]. simplify_eq. rewrite Hempty.
    split; [done|simpl; lia].
  - case_bool_decide as Hlen; [done|].
    destruct (contains_null _); [done|]. simplify_eq. split; [done|lia].
Qed.

(** Length and whitespace are those of code points: 61 Cyrillic letters
    are 61 characters and pass whole, as do two with spaces around them. *)
Lemma CommentForm_clean_code_points :
  CommentForm.clean Example.cyrillic_61 = Some Example.cyrillic_61
  ∧ CommentForm.clean [32; 1080; 1093; 160]%N = Some [1080; 1093]%N.
Proof. split; reflexivity. Qed.

(** C8, as amended: a comment whose text is still longer than 120
    characters once leading and trailing whitespace is stripped fails the
    form's validation; nothing is stored, and a logged-in user commenting on
    an existing post gets the form back with its errors. *)
Theorem C8_overlong_comment_persists_nothing
    (s : Store) (now : timestamp) (user : RequestUser) (method : Method)
    (post_id : Z) (text : str)
    (Hlong : (120 < length (strip text))%nat) :
  CommentForm.clean text = None
  ∧ (CommentCreateView s now user method post_id text).1 = s
  ∧ (is_authenticated user = true → is_Some (posts s !! post_id) →
     CommentCreateView s now user POST post_id text
     = (s, TemplateResponse (FormContext true))).
Proof.
  assert (Hclean : CommentForm.clean text = None)
    by by apply CharField_clean_too_long.
  split; [done|]. unfold CommentCreateView, LoginRequiredMixin_dispatch.
  rewrite Hclean. split.
  - destruct (posts s !! post_id); [|done].
    by destruct (is_authenticated user), method.
  - intros -> [post ->]. done.
Qed.

Lemma C8_overlong_comment_witness :
  (120 < length (strip Example.cyrillic_121))%nat
  ∧ CommentCreateView Example.store 100 (LoggedIn 2 Example.bob) POST 5
      Example.cyrillic_121
    = (Example.store, TemplateResponse (FormContext true)).
Proof.
  assert (Hlong : (120 < length (strip Example.cyrillic_121))%nat)
    by (vm_compute; lia).
  split; [exact Hlong|].
  destruct (C8_overlong_comment_persists_nothing Example.store 100
              (LoggedIn 2 Example.bob) POST 5 _ Hlong) as (_ & _ & Hview).
  apply Hview; [reflexivity|]. by eexists.
Defined.

(** C8, as stated, fails: 120 letters and a trailing space are 121
    characters; the form strips the space and the comment is saved. *)
Lemma C8_padded_comment_is_saved :
  ¬ (∀ (s : Store) (now : timestamp) (user : RequestUser) (post_id : Z)
       (text : str),
       (120 < length text)%nat →
       (CommentCreateView s now user POST post_id text).1 = s).
Proof.
  intros Hall.
  specialize (Hall Example.store 100 (LoggedIn 2 Example.bob) 5
                Example.padded_text).
  apply (f_equal (λ s, comments s !! 5)) in Hall.
  - vm_compute in Hall. discriminate Hall.
  - vm_compute. lia.
Qed.

(** ** New primary keys *)

Lemma foldr_max_ge (l : list Z) k : k ∈ l → k ≤ foldr Z.max 0 l.
Proof.
  induction l as [|x l IH]; [by intros ?%elem_of_nil|].
  intros [->|Hin]%elem_of_cons; simpl; [lia|].
  specialize (IH Hin). lia.
Qed.

Lemma new_pk_fresh {A} (table : gmap Z A) : table !! new_pk table = None.
Proof.
  destruct (table !! new_pk table) as [x|] eqn:Hx; [|done].
  apply elem_of_all in Hx.
  assert (Hin : new_pk table ∈ (all table).*1).
  { apply list_elem_of_fmap. by exists (new_pk table, x). }
  apply foldr_max_ge in Hin. unfold new_pk in Hin at 1. lia.
Qed.

(** C10: a logged-in user's comment on an existing post is stored, with the
    user as author and the post as target, whatever the post's publication
    state, category or date; the view answers NotFound exactly when no post
    has the requested id. *)
Theorem C10_comment_needs_only_an_existing_post
    (s : Store) (now : timestamp) (pk : Z) (u : User.t) (method : Method)
    (post_id : Z) (text : str) :
  ((CommentCreateView s now (LoggedIn pk u) method post_id text).2 = Http404
   ↔ posts s !! post_id = None)
  ∧ (∀ post cleaned,
       posts s !! post_id = Some post →
       CommentForm.clean text = Some cleaned →
       comments s !! new_pk (comments s) = None
       ∧ CommentCreateView s now (LoggedIn pk u) POST post_id text
         = (set_comments
              (insert (new_pk (comments s))
                 {| Comment.text := cleaned;
                    Comment.post := post_id;
                    Comment.created_at := now;
                    Comment.author := pk |}) s,
            Redirect (blog_post_detail post_id))).
Proof.
  unfold CommentCreateView, LoginRequiredMixin_dispatch. simpl. split.
  - destruct (posts s !! post_id) as [post|]; [|done].
    split; [|done].
    destruct method; [done|]. by destruct (CommentForm.clean text).
  - intros post cleaned -> ->. split; [apply new_pk_fresh|done].
Qed.

Lemma C10_comment_witness :
  Post.is_published Example.post3 = false
  ∧ (CommentCreateView Example.store 100 (LoggedIn 2 Example.bob) POST 3 (str_of "Hi")).2
    = Redirect (blog_post_detail 3)
  ∧ comments (CommentCreateView Example.store 100 (LoggedIn 2 Example.bob)
                POST 3 (str_of "Hi")).1 !! 5
    = Some {| Comment.text := (str_of "Hi"); Comment.post := 3;
              Comment.created_at := 100; Comment.author := 2 |}.
Proof.
  split; [reflexivity|].
  destruct (C10_comment_needs_only_an_existing_post Example.store 100 2
              Example.bob POST 3 (str_of "Hi")) as [_ Hcreate].
  destruct (Hcreate Example.post3 (str_of "Hi")) as [_ ->]; [reflexivity..|].
  split; reflexivity.
Defined.

(** ** Post creation *)

(** A post that no comment refers to has an empty thread and count zero. *)
Lemma no_comments s post_id :
  (∀ k c, comments s !! k = Some c → Comment.post c ≠ post_id) →
  Post_comments s post_id = [] ∧ Count_comments s post_id = 0%nat.
Proof.
  intros Hnone.
  assert (Hfilter : filter (λ c : Z * Comment.t, Comment.post c.2 = post_id)
                      (all (comments s)) = []).
  { destruct (filter _ _) as [|[k c] l] eqn:Hfilter; [done|].
    assert (Hin : (k, c) ∈ filter (λ c : Z * Comment.t, Comment.post c.2 = post_id)
                    (all (comments s))) by (rewrite Hfilter; left).
    apply list_elem_of_filter in Hin as [Hpost Hin]. apply elem_of_all in Hin.
    by destruct (Hnone k c). }
  unfold Post_comments, Count_comments. by rewrite Hfilter.
Qed.




(** ** Referential integrity is kept by every view

    [comments_have_posts], which the round trip above relies on, is an
    invariant of the views that change the store. *)

Lemma Post_delete_integrity s post_id :
  comments_have_posts s → comments_have_posts (Post_delete post_id s).
Proof.
  intros Hfk k c [Hc Hne]%map_lookup_filter_Some. simpl in *.
  rewrite lookup_delete_ne by done. by apply (Hfk k).
Qed.

(** Deleting a post takes the post and its whole thread out of the store. *)
Lemma Post_delete_cascade s post_id :
  posts (Post_delete post_id s) !! post_id = None
  ∧ Post_comments (Post_delete post_id s) post_id = [].
Proof.
  split; [apply lookup_delete_eq|].
  apply no_comments. by intros k c [_ Hne]%map_lookup_filter_Some.
Qed.

Lemma PostCreateView_integrity dflt s now user method form :
  comments_have_posts s →
  comments_have_posts (PostCreateView dflt s now user method form).1.
Proof.
  intros Hfk. unfold PostCreateView, LoginRequiredMixin_dispatch.
  destruct user as [|pk u]; [done|]. simpl.
  destruct method; [done|]. destruct form as [d|]; [|done].
  intros k c Hc. simpl in *. apply lookup_insert_is_Some'. right.
  by apply (Hfk k).
Qed.

Lemma PostUpdateView_integrity s user method post_id form :
  comments_have_posts s →
  comments_have_posts (PostUpdateView s user method post_id form).1.
Proof.
  intros Hfk. unfold PostUpdateView, PostMixin_dispatch,
    LoginRequiredMixin_dispatch.
  destruct (posts s !! post_id) as [post|]; [|done].
  destruct (negb _); [done|]. destruct (is_authenticated user); [|done].
  destruct method; [done|]. destruct form as [d|]; [|done].
  intros k c Hc. simpl in *. apply lookup_insert_is_Some'. right.
  by apply (Hfk k).
Qed.

Lemma PostDeleteView_integrity s user method post_id :
  comments_have_posts s →
  comments_have_posts (PostDeleteView s user method post_id).1.
Proof.
  intros Hfk. unfold PostDeleteView, PostMixin_dispatch,
    LoginRequiredMixin_dispatch.
  destruct (posts s !! post_id) as [post|]; [|done].
  destruct (negb _); [done|]. destruct (is_authenticated user); [|done].
  destruct method; [done|]. by apply Post_delete_integrity.
Qed.

Lemma CommentCreateView_integrity s now user method post_id text :
  comments_have_posts s →
  comments_have_posts (CommentCreateView s now user method post_id text).1.
Proof.
  intros Hfk. unfold CommentCreateView, LoginRequiredMixin_dispatch.
  destruct (posts s !! post_id) as [post|] eqn:Hpost; [|done].
  destruct user as [|pk u]; [done|]. simpl.
  destruct method; [done|]. destruct (CommentForm.clean text); [|done].
  intros k c. simpl.
  intros [[_ <-]|[_ Hc]]%lookup_insert_Some; [by eexists|by apply (Hfk k)].
Qed.

Lemma CommentUpdateView_integrity s user method post_id comment_id text :
  comments_have_posts s →
  comments_have_posts (CommentUpdateView s user method post_id comment_id text).1.
Proof.
  intros Hfk. unfold CommentUpdateView, CommentMixin_dispatch,
    LoginRequiredMixin_dispatch.
  destruct (comments s !! comment_id) as [object|] eqn:Hobject; [|done].
  destruct (negb _); [done|]. destruct (is_authenticated user); [|done].
  destruct method; [done|]. destruct (CommentForm.clean text); [|done].
  intros k c. simpl.
  intros [[_ <-]|[_ Hc]]%lookup_insert_Some;
    [simpl; by apply (Hfk comment_id object)|by apply (Hfk k)].
Qed.

Lemma CommentDeleteView_integrity s user method post_id comment_id :
  comments_have_posts s →
  comments_have_posts (CommentDeleteView s user method post_id comment_id).1.
Proof.
  intros Hfk. unfold CommentDeleteView, CommentMixin_dispatch,
    LoginRequiredMixin_dispatch.
  destruct (comments s !! comment_id) as [object|]; [|done].
  destruct (negb _); [done|]. destruct (is_authenticated user); [|done].
  destruct method; [done|].
  intros k c. simpl. intros [_ Hc]%lookup_delete_Some. by apply (Hfk k).
Qed.

(** The author's own delete goes through, thread included. *)
Lemma PostDeleteView_author s pk u post_id post :
  posts s !! post_id = Some post →
  Post.author post = Some pk →
  PostDeleteView s (LoggedIn pk u) POST post_id
  = (Post_delete post_id s, Redirect (blog_profile (User.username u))).
Proof.
  intros Hpost Hauthor.
  unfold PostDeleteView, PostMixin_dispatch, LoginRequiredMixin_dispatch.
  rewrite Hpost, Hauthor. simpl. by rewrite bool_decide_true.
Qed.


(** * Further properties of the views *)

(** ** Listings and the pages they link to *)

Lemma NoDup_keys_filter {A B} (Q : Z * A * B → Prop) `{!∀ x, Decision (Q x)}
    (l : list (Z * A * B)) :
  NoDup l.*1.*1 → NoDup (filter Q l).*1.*1.
Proof.
  intros Hl. apply (sublist_NoDup _ l.*1.*1); [done|].
  by apply fmap_sublist, fmap_sublist, sublist_filter.
Qed.

Lemma NoDup_keys_ordered s (P : Z * Post.t → Prop) `{!∀ x, Decision (P x)} :
  NoDup (annotate s (order_by_pub_date_desc (filter P (all (posts s))))).*1.*1.
Proof.
  rewrite annotate_fst. unfold order_by_pub_date_desc.
  rewrite merge_sort_Permutation.
  apply (sublist_NoDup _ (all (posts s)).*1); [apply NoDup_fst_map_to_list|].
  apply fmap_sublist, sublist_filter.
Qed.

(** X1: no listing shows a post twice: the primary keys in the queryset of
    [Post.manager], in a category feed and in a profile listing are pairwise
    distinct. *)
Theorem X1_listings_have_no_duplicates
    (s : Store) (now : timestamp) (user : RequestUser) (name : string) :
  NoDup (PostManager_get_queryset s now).*1.*1
  ∧ NoDup (CategoryPostsListView_get_queryset s now name).*1.*1
  ∧ NoDup (ProfileListView_get_queryset s now user name).*1.*1.
Proof.
  assert (Hmanager : NoDup (PostManager_get_queryset s now).*1.*1).
  { unfold PostManager_get_queryset.
    apply (NoDup_keys_ordered s (λ r, published_filter s now r)). }
  split; [done|]. split.
  - by apply NoDup_keys_filter.
  - unfold ProfileListView_get_queryset.
    pose proof (NoDup_keys_ordered s
                  (λ r, author__username s r.2 = Some name)) as Hbase.
    case_bool_decide; [by apply NoDup_keys_filter|done].
Qed.

Lemma PostManager_get_queryset_mono s t1 t2 r :
  t1 ≤ t2 →
  r ∈ PostManager_get_queryset s t1 → r ∈ PostManager_get_queryset s t2.
Proof.
  destruct r as [[k p] n]. intros Hle.
  rewrite !elem_of_PostManager_get_queryset.
  intros (? & ? & ? & ? & ?). repeat split; [done..|lia|done].
Qed.

(** X2: the home feed is a page of the manager's queryset at the time
    views.py was imported.  As long as the clock has not gone back since,
    every post on a page of the home feed is in the public listing of the
    moment and satisfies the visibility predicate now; the page is ordered
    newest first. *)
Theorem X2_home_feed_shows_only_visible_posts
    (page_size : nat) (s : Store) (imported_at now : timestamp)
    (page : PageParam) (object_list : list (Z * Post.t * nat))
    (Hclock : imported_at ≤ now)
    (Hfeed : IndexListView page_size s imported_at page
             = TemplateResponse (IndexContext object_list)) :
  (∀ r, r ∈ object_list → r ∈ PostManager_get_queryset s now)
  ∧ (∀ k p n, (k, p, n) ∈ object_list →
              posts s !! k = Some p ∧ spec_publicly_visible s now p
              ∧ Post.pub_date p < imported_at ∧ n = Count_comments s k)
  ∧ StronglySorted newer_first object_list.*1.
Proof.
  unfold IndexListView in Hfeed.
  destruct (get_page _ _ _) as [object_list'|] eqn:Hpage; [|done].
  injection Hfeed as ->.
  assert (Hin : ∀ r, r ∈ object_list →
                     r ∈ PostManager_get_queryset s imported_at)
    by (intros r; by apply (elem_of_get_page _ _ _ _ _ Hpage)).
  split; [intros r Hr; by apply (PostManager_get_queryset_mono s imported_at), Hin|].
  split.
  - intros k p n Hr%Hin.
    pose proof (PostManager_get_queryset_mono s _ now _ Hclock Hr) as Hnow.
    apply PostManager_get_queryset_visible in Hnow.
    apply elem_of_PostManager_get_queryset in Hr as (? & _ & _ & ? & ?).
    done.
  - apply (StronglySorted_sublist _ _ (PostManager_get_queryset s imported_at).*1);
      [|apply PostManager_get_queryset_sorted].
    by apply fmap_sublist, (get_page_sublist _ _ _ _ Hpage).
Qed.

Lemma X2_home_feed_witness :
  IndexListView Example.NUMBER_OF_PUBLICATIONS Example.store 60 NoPage
  = TemplateResponse
      (IndexContext [(7, Example.post7, 0%nat); (5, Example.post5, 2%nat)])
  ∧ (5, Example.post5, 2%nat) ∈ PostManager_get_queryset Example.store 200.
Proof.
  assert (Hfeed : IndexListView Example.NUMBER_OF_PUBLICATIONS Example.store
                    60 NoPage
                  = TemplateResponse
                      (IndexContext [(7, Example.post7, 0%nat);
                                     (5, Example.post5, 2%nat)]))
    by (vm_compute; reflexivity).
  split; [exact Hfeed|].
  destruct (X2_home_feed_shows_only_visible_posts _ Example.store 60 200 _ _
              ltac:(lia) Hfeed) as [Hlisted _].
  apply Hlisted. right. left.
Defined.

Lemma Count_comments_thread s post_id :
  Count_comments s post_id = length (Post_comments s post_id).
Proof.
  unfold Count_comments, Post_comments. by rewrite merge_sort_Permutation.
Qed.

(** X3: every entry of the public listing leads to a page: the detail view
    of a listed post renders for every viewer, the anonymous one included,
    with the listed row, and the comment count shown in the listing is the
    length of the thread on that page. *)
Theorem X3_listed_posts_have_detail_pages
    (s : Store) (now : timestamp) (user : RequestUser)
    (k : Z) (p : Post.t) (n : nat)
    (Hlisted : (k, p, n) ∈ PostManager_get_queryset s now) :
  PostDetailView s now user k
  = TemplateResponse (DetailContext (k, p) (Post_comments s k))
  ∧ length (Post_comments s k) = n.
Proof.
  apply elem_of_PostManager_get_queryset in Hlisted
    as (Hp & Hpub & Hcat & Hdue & ->).
  split; [|by rewrite Count_comments_thread].
  unfold category__is_published in Hcat.
  destruct (Post.category p) as [kc|] eqn:Hkc; [|done].
  destruct (categories s !! kc) as [c|] eqn:Hc; [|done].
  apply (PostDetailView_visible _ _ _ _ _ kc c); [done|done|lia|done|done|done].
Qed.

Lemma X3_listed_posts_witness :
  (5, Example.post5, 2%nat) ∈ PostManager_get_queryset Example.store 100
  ∧ PostDetailView Example.store 100 AnonymousUser 5
    = TemplateResponse
        (DetailContext (5, Example.post5) (Post_comments Example.store 5))
  ∧ length (Post_comments Example.store 5) = 2%nat.
Proof.
  assert (Hlisted : (5, Example.post5, 2%nat)
                    ∈ PostManager_get_queryset Example.store 100)
    by (vm_compute; right; left).
  split; [exact Hlisted|].
  exact (X3_listed_posts_have_detail_pages Example.store 100 AnonymousUser
           5 Example.post5 2 Hlisted).
Defined.

(** X4: the detail view never shows a hidden post to a stranger: whenever
    it renders, the page is that of the requested post, and the viewer is
    the post's author or the post is published, in a published category and
    due. *)
Theorem X4_detail_view_never_leaks
    (s : Store) (now : timestamp) (user : RequestUser) (post_id : Z)
    (context : Context)
    (Hrenders : PostDetailView s now user post_id = TemplateResponse context) :
  ∃ post,
    posts s !! post_id = Some post
    ∧ context = DetailContext (post_id, post) (Post_comments s post_id)
    ∧ (is_user (Post.author post) user = true
       ∨ spec_publicly_visible s now post).
Proof.
  unfold PostDetailView, DetailView_get, PostDetailView_get_context_data,
    post_category_is_published in Hrenders.
  destruct (posts s !! post_id) as [post|]; [|done].
  exists post. split; [done|].
  destruct (is_user _ _); [simplify_eq; eauto|].
  destruct (Post.is_published post) eqn:Hpub; [|done]. simpl in Hrenders.
  case_bool_decide as Hdue; [|done].
  destruct (Post.category post) as [kc|] eqn:Hkc; [|done].
  destruct (categories s !! kc) as [c|] eqn:Hc; [|done].
  destruct (Category.is_published c) eqn:Hcpub; [|done].
  simplify_eq. split; [done|]. right.
  split; [done|]. split; [|done]. by exists kc, c.
Qed.

Lemma X4_detail_view_witness :
  PostDetailView Example.store 100 (LoggedIn 1 Example.alice) 3
  = TemplateResponse (DetailContext (3, Example.post3) [])
  ∧ is_user (Post.author Example.post3) (LoggedIn 1 Example.alice) = true.
Proof.
  assert (Hview : PostDetailView Example.store 100 (LoggedIn 1 Example.alice) 3
                  = TemplateResponse (DetailContext (3, Example.post3) []))
    by (vm_compute; reflexivity).
  split; [exact Hview|].
  destruct (X4_detail_view_never_leaks Example.store 100
              (LoggedIn 1 Example.alice) 3 _ Hview)
    as (post & Hpost & _ & Hwhy).
  assert (Some Example.post3 = Some post) as [= <-] by exact Hpost.
  destruct Hwhy as [Hauthor | [Hpub _]]; [exact Hauthor | discriminate Hpub].
Defined.

(** ** Who can change the store *)

(** X5: an anonymous request changes nothing, whatever view, method and
    form data it comes with. *)
Theorem X5_anonymous_requests_change_nothing
    (default_is_published : bool) (s : Store) (now : timestamp)
    (method : Method) (post_id comment_id : Z)
    (post_form : option PostForm.cleaned_data)
    (user_form : option UserForm.cleaned_data) (text : str) :
  (ProfileUpdateView s AnonymousUser method user_form).1 = s
  ∧ (PostCreateView default_is_published s now AnonymousUser method post_form).1 = s
  ∧ (PostUpdateView s AnonymousUser method post_id post_form).1 = s
  ∧ (PostDeleteView s AnonymousUser method post_id).1 = s
  ∧ (CommentCreateView s now AnonymousUser method post_id text).1 = s
  ∧ (CommentUpdateView s AnonymousUser method post_id comment_id text).1 = s
  ∧ (CommentDeleteView s AnonymousUser method post_id comment_id).1 = s.
Proof.
  unfold PostUpdateView, PostDeleteView, CommentCreateView, CommentUpdateView,
    CommentDeleteView, PostMixin_dispatch, CommentMixin_dispatch.
  split; [done|]. split; [done|].
  destruct (posts s !! post_id) as [post|], (comments s !! comment_id) as [c|];
    simpl; try destruct (Post.author post); done.
Qed.


(** X7: the author's edit reads back.  After the author posts a valid form
    the response is a redirect to the post, whose detail view now shows the
    form's title, text, date, category, location and image with the old
    author, publication flag, creation time and thread; every other post
    and every comment, user and category is as before. *)
Theorem X7_author_edit_reads_back
    (s : Store) (now : timestamp) (pk : Z) (u : User.t) (post_id : Z)
    (post : Post.t) (d : PostForm.cleaned_data)
    (Hpost : posts s !! post_id = Some post)
    (Hauthor : Post.author post = Some pk) :
  let result := PostUpdateView s (LoggedIn pk u) POST post_id (Some d) in
  let edited :=
    {| Post.title := PostForm.title d;
       Post.text := PostForm.text d;
       Post.pub_date := PostForm.pub_date d;
       Post.author := Some pk;
       Post.category := Some (PostForm.category d);
       Post.location := PostForm.location d;
       Post.image := PostForm.image d;
       Post.is_published := Post.is_published post;
       Post.created_at := Post.created_at post |} in
  result.2 = Redirect (blog_post_detail post_id)
  ∧ PostDetailView result.1 now (LoggedIn pk u) post_id
    = TemplateResponse (DetailContext (post_id, edited) (Post_comments s post_id))
  ∧ (∀ k, k ≠ post_id → posts result.1 !! k = posts s !! k)
  ∧ comments result.1 = comments s
  ∧ users result.1 = users s
  ∧ categories result.1 = categories s.
Proof.
  intros result edited.
  assert (Hresult : result
                    = (set_posts (insert post_id edited) s,
                       Redirect (blog_post_detail post_id))).
  { unfold result. rewrite (PostUpdateView_author _ _ _ _ post) by done.
    unfold PostForm.assign. by rewrite Hauthor. }
  clearbody result. subst result. simpl.
  split; [done|]. split; [|split; [|done]].
  - rewrite (PostDetailView_author _ _ _ _ edited); [done| |].
    + simpl. apply lookup_insert_eq.
    + simpl. by rewrite bool_decide_true.
  - intros k Hk. by apply lookup_insert_ne.
Qed.

Lemma X7_author_edit_witness :
  PostDetailView
    (PostUpdateView Example.store (LoggedIn 1 Example.alice) POST 3
       (Some Example.form)).1
    100 (LoggedIn 1 Example.alice) 3
  = TemplateResponse
      (DetailContext
         (3, {| Post.title := "New"; Post.text := "Body"; Post.pub_date := 500;
                Post.author := Some 1; Post.category := Some 1;
                Post.location := None; Post.image := "";
                Post.is_published := false; Post.created_at := 1 |})
         []).
Proof.
  destruct (X7_author_edit_reads_back Example.store 100 1 Example.alice 3
              Example.post3 Example.form eq_refl eq_refl)
    as (_ & Hdetail & _).
  exact Hdetail.
Defined.

(** X8: the edit form cannot touch what [PostForm] excludes, and it creates
    and removes nothing: after any request to the update view, by anybody,
    the store holds the same post keys, and each post has the author, the
    publication flag and the creation time it had. *)
Theorem X8_edit_keeps_excluded_fields
    (s : Store) (user : RequestUser) (method : Method) (post_id : Z)
    (form : option PostForm.cleaned_data) (k : Z) :
  match posts (PostUpdateView s user method post_id form).1 !! k, posts s !! k with
  | Some after, Some before =>
      Post.author after = Post.author before
      ∧ Post.is_published after = Post.is_published before
      ∧ Post.created_at after = Post.created_at before
  | None, None => True
  | _, _ => False
  end.
Proof.
  assert (Hsame : match posts s !! k, posts s !! k with
                  | Some after, Some before =>
                      Post.author after = Post.author before
                      ∧ Post.is_published after = Post.is_published before
                      ∧ Post.created_at after = Post.created_at before
                  | None, None => True
                  | _, _ => False
                  end) by (by destruct (posts s !! k)).
  unfold PostUpdateView, PostMixin_dispatch, LoginRequiredMixin_dispatch.
  destruct (posts s !! post_id) as [post|] eqn:Hpost; [|done].
  destruct (negb _); [done|]. destruct (is_authenticated user); [|done].
  destruct method; [done|]. destruct form as [d|]; [|done]. simpl.
  destruct (decide (k = post_id)) as [->|Hne].
  - by rewrite lookup_insert_eq, Hpost.
  - by rewrite lookup_insert_ne.
Qed.

Lemma Count_comments_ext s1 s2 post_id :
  (∀ k c, Comment.post c = post_id →
          (comments s1 !! k = Some c ↔ comments s2 !! k = Some c)) →
  Count_comments s1 post_id = Count_comments s2 post_id.
Proof.
  intros Hsame. unfold Count_comments.
  apply Permutation_length, NoDup_Permutation;
    [apply NoDup_filter, NoDup_all..|].
  intros [k c]. rewrite !list_elem_of_filter, !elem_of_all. simpl.
  split; intros [Hpost Hc]; (split; [done|]); by apply (Hsame k c Hpost).
Qed.

(** X9: the author's delete takes the post and its whole thread with it.
    Afterwards the response is a redirect to the author's profile, the
    post's detail view answers NotFound to everybody, the post is in no
    listing, exactly the comments on other posts remain, and every other
    post is as before with the comment count it had. *)
Theorem X9_author_delete_cascades
    (s : Store) (pk : Z) (u : User.t) (post_id : Z) (post : Post.t)
    (Hpost : posts s !! post_id = Some post)
    (Hauthor : Post.author post = Some pk) :
  let result := PostDeleteView s (LoggedIn pk u) POST post_id in
  result.2 = Redirect (blog_profile (User.username u))
  ∧ (∀ later viewer, PostDetailView result.1 later viewer post_id = Http404)
  ∧ (∀ later p n, (post_id, p, n) ∉ PostManager_get_queryset result.1 later)
  ∧ (∀ k c, comments result.1 !! k = Some c ↔
            comments s !! k = Some c ∧ Comment.post c ≠ post_id)
  ∧ (∀ k, k ≠ post_id →
          posts result.1 !! k = posts s !! k
          ∧ Count_comments result.1 k = Count_comments s k).
Proof.
  intros result.
  assert (Hresult : result
                    = (Post_delete post_id s,
                       Redirect (blog_profile (User.username u))))
    by by apply (PostDeleteView_author _ _ _ _ post).
  clearbody result. subst result. simpl.
  assert (Hcomments : ∀ k c, comments (Post_delete post_id s) !! k = Some c ↔
                             comments s !! k = Some c ∧ Comment.post c ≠ post_id).
  { intros k c. simpl. by rewrite map_lookup_filter_Some. }
  split; [done|]. split; [|split; [|split; [done|]]].
  - intros later viewer. apply PostDetailView_missing. apply lookup_delete_eq.
  - intros later p n (Hp & _)%elem_of_PostManager_get_queryset.
    simpl in Hp. by rewrite lookup_delete_eq in Hp.
  - intros k Hk. split; [by apply lookup_delete_ne|].
    apply Count_comments_ext. intros k' c Hc. rewrite Hcomments.
    split; [tauto|]. intros ?. split; [done|congruence].
Qed.

Lemma X9_author_delete_witness :
  PostDetailView
    (PostDeleteView Example.store (LoggedIn 1 Example.alice) POST 5).1
    100 (LoggedIn 1 Example.alice) 5 = Http404
  ∧ comments (PostDeleteView Example.store (LoggedIn 1 Example.alice) POST 5).1
      !! 4 = None.
Proof.
  destruct (X9_author_delete_cascades Example.store 1 Example.alice 5
              Example.post5 eq_refl eq_refl)
    as (_ & Hdetail & _ & Hcomments & _).
  split; [apply Hdetail|].
  destruct (comments _ !! 4) as [c|] eqn:Hc; [|reflexivity].
  apply Hcomments in Hc as [Hc Hne].
  assert (Some Example.comment4 = Some c) as [= <-] by exact Hc.
  by destruct Hne.
Defined.

(** X10: no view lets a user change or delete somebody else's post: a post
    whose author is not the requesting user is in the store, unchanged,
    after any request of that user to any of the views. *)
Theorem X10_posts_of_others_are_untouched
    (default_is_published : bool) (s : Store) (now : timestamp)
    (user : RequestUser) (method : Method) (post_id comment_id : Z)
    (post_form : option PostForm.cleaned_data)
    (user_form : option UserForm.cleaned_data) (text : str)
    (k : Z) (p : Post.t)
    (Hp : posts s !! k = Some p)
    (Hother : is_user (Post.author p) user = false) :
  posts (ProfileUpdateView s user method user_form).1 !! k = Some p
  ∧ posts (PostCreateView default_is_published s now user method post_form).1 !! k
    = Some p
  ∧ posts (PostUpdateView s user method post_id post_form).1 !! k = Some p
  ∧ posts (PostDeleteView s user method post_id).1 !! k = Some p
  ∧ posts (CommentCreateView s now user method post_id text).1 !! k = Some p
  ∧ posts (CommentUpdateView s user method post_id comment_id text).1 !! k = Some p
  ∧ posts (CommentDeleteView s user method post_id comment_id).1 !! k = Some p.
Proof.
  unfold ProfileUpdateView, PostCreateView, PostCreateView_form_valid,
    PostUpdateView, PostDeleteView, CommentCreateView,
    CommentCreateView_form_valid, CommentUpdateView,
    CommentDeleteView, PostMixin_dispatch, CommentMixin_dispatch,
    LoginRequiredMixin_dispatch.
  repeat split.
  - destruct user as [|pk u]; [done|]. destruct (users s !! pk); [|done].
    simpl. by destruct method, user_form.
  - destruct user as [|pk u]; [done|]. simpl.
    destruct method; [done|]. destruct post_form as [d|]; [|done]. simpl.
    rewrite lookup_insert_ne; [done|].
    intros Heq. pose proof (new_pk_fresh (posts s)) as Hfresh. congruence.
  - destruct (decide (k = post_id)) as [->|Hne].
    + by rewrite Hp, Hother.
    + destruct (posts s !! post_id) as [post|]; [|done].
      destruct (negb _); [done|]. destruct (is_authenticated user); [|done].
      destruct method; [done|]. destruct post_form; [|done].
      simpl. by rewrite lookup_insert_ne.
  - destruct (decide (k = post_id)) as [->|Hne].
    + by rewrite Hp, Hother.
    + destruct (posts s !! post_id) as [post|]; [|done].
      destruct (negb _); [done|]. destruct (is_authenticated user); [|done].
      destruct method; [done|]. simpl. by rewrite lookup_delete_ne.
  - destruct (posts s !! post_id); [|done].
    destruct user as [|pk u]; [done|]. simpl.
    destruct method; [done|]. by destruct (CommentForm.clean text).
  - destruct (comments s !! comment_id); [|done].
    destruct (negb _); [done|]. destruct (is_authenticated user); [|done].
    destruct method; [done|]. by destruct (CommentForm.clean text).
  - destruct (comments s !! comment_id); [|done].
    destruct (negb _); [done|]. destruct (is_authenticated user); [|done].
    by destruct method.
Qed.

Lemma X10_posts_of_others_witness :
  posts (PostUpdateView Example.store (LoggedIn 2 Example.bob) POST 5
           (Some Example.form)).1 !! 5 = Some Example.post5
  ∧ posts (PostDeleteView Example.store (LoggedIn 2 Example.bob) POST 5).1 !! 5
    = Some Example.post5.
Proof.
  destruct (X10_posts_of_others_are_untouched true Example.store 100
              (LoggedIn 2 Example.bob) POST 5 3 (Some Example.form) None (str_of "x")
              5 Example.post5 eq_refl eq_refl)
    as (_ & _ & Hupdate & Hdelete & _).
  split; [exact Hupdate | exact Hdelete].
Defined.

(** X11: the comment views, like the profile and post forms, never change
    or delete somebody else's comment.  The one way a comment disappears
    without its author is the cascade: deleting a post removes the comments
    on it, and that takes the post's own author. *)
Theorem X11_comments_of_others_are_untouched
    (default_is_published : bool) (s : Store) (now : timestamp)
    (user : RequestUser) (method : Method) (post_id comment_id : Z)
    (post_form : option PostForm.cleaned_data)
    (user_form : option UserForm.cleaned_data) (text : str)
    (k : Z) (c : Comment.t)
    (Hc : comments s !! k = Some c)
    (Hother : is_user (Some (Comment.author c)) user = false) :
  comments (ProfileUpdateView s user method user_form).1 !! k = Some c
  ∧ comments (PostCreateView default_is_published s now user method post_form).1
      !! k = Some c
  ∧ comments (PostUpdateView s user method post_id post_form).1 !! k = Some c
  ∧ comments (CommentCreateView s now user method post_id text).1 !! k = Some c
  ∧ comments (CommentUpdateView s user method post_id comment_id text).1 !! k
    = Some c
  ∧ comments (CommentDeleteView s user method post_id comment_id).1 !! k = Some c
  ∧ (comments (PostDeleteView s user method post_id).1 !! k = Some c
     ∨ (Comment.post c = post_id
        ∧ ∃ post, posts s !! post_id = Some post
                  ∧ is_user (Post.author post) user = true)).
Proof.
  unfold ProfileUpdateView, PostCreateView, PostCreateView_form_valid,
    PostUpdateView, PostDeleteView, CommentCreateView,
    CommentCreateView_form_valid, CommentUpdateView,
    CommentDeleteView, PostMixin_dispatch, CommentMixin_dispatch,
    LoginRequiredMixin_dispatch.
  repeat split.
  - destruct user as [|pk u]; [done|]. destruct (users s !! pk); [|done].
    simpl. by destruct method, user_form.
  - destruct user as [|pk u]; [done|]. simpl. by destruct method, post_form.
  - destruct (posts s !! post_id) as [post|]; [|done].
    destruct (negb _); [done|]. destruct (is_authenticated user); [|done].
    by destruct method, post_form.
  - destruct (posts s !! post_id); [|done].
    destruct user as [|pk u]; [done|]. simpl.
    destruct method; [done|]. destruct (CommentForm.clean text); [|done].
    simpl. rewrite lookup_insert_ne; [done|].
    intros Heq. pose proof (new_pk_fresh (comments s)) as Hfresh. congruence.
  - destruct (decide (k = comment_id)) as [->|Hne].
    + by rewrite Hc, Hother.
    + destruct (comments s !! comment_id); [|done].
      destruct (negb _); [done|]. destruct (is_authenticated user); [|done].
      destruct method; [done|]. destruct (CommentForm.clean text); [|done].
      simpl. by rewrite lookup_insert_ne.
  - destruct (decide (k = comment_id)) as [->|Hne].
    + by rewrite Hc, Hother.
    + destruct (comments s !! comment_id); [|done].
      destruct (negb _); [done|]. destruct (is_authenticated user); [|done].
      destruct method; [done|]. simpl. by rewrite lookup_delete_ne.
  - destruct (posts s !! post_id) as [post|] eqn:Hpost; [|by left].
    destruct (is_user (Post.author post) user) eqn:Hauthor; [|by left].
    simpl. destruct (is_authenticated user); [|by left].
    destruct method; [by left|]. simpl.
    destruct (decide (Comment.post c = post_id)) as [Heq|Hne].
    + right. split; [done|]. by exists post.
    + left. by apply map_lookup_filter_Some.
Qed.

Lemma X11_comments_of_others_witness :
  comments (CommentUpdateView Example.store (LoggedIn 2 Example.bob) POST 5 3
              (str_of "Edited")).1 !! 3 = Some Example.comment3
  ∧ comments (CommentDeleteView Example.store (LoggedIn 2 Example.bob) POST 5 3).1
      !! 3 = Some Example.comment3.
Proof.
  destruct (X11_comments_of_others_are_untouched true Example.store 100
              (LoggedIn 2 Example.bob) POST 5 3 None None (str_of "Edited")
              3 Example.comment3 eq_refl eq_refl)
    as (_ & _ & _ & _ & Hupdate & Hdelete & _).
  split; [exact Hupdate | exact Hdelete].
Defined.

(** ** Comments: what creating, editing and deleting one changes *)

Lemma Count_comments_insert s k c post_id :
  comments s !! k = None →
  Count_comments (set_comments (insert k c) s) post_id
  = if decide (Comment.post c = post_id)
    then S (Count_comments s post_id) else Count_comments s post_id.
Proof.
  intros Hfresh. unfold Count_comments, all. simpl.
  rewrite (map_to_list_insert _ _ _ Hfresh), filter_cons. simpl.
  by destruct (decide (Comment.post c = post_id)).
Qed.

Lemma Count_comments_delete s k c post_id :
  comments s !! k = Some c →
  Count_comments s post_id
  = if decide (Comment.post c = post_id)
    then S (Count_comments (set_comments (delete k) s) post_id)
    else Count_comments (set_comments (delete k) s) post_id.
Proof.
  intros Hc. unfold Count_comments, all. simpl.
  rewrite <- (map_to_list_delete _ _ _ Hc), filter_cons. simpl.
  by destruct (decide (Comment.post c = post_id)).
Qed.

(** X12: a stored comment adds exactly one to its post's comment count and
    shows in that post's thread; the stored text is the stripped submission,
    non-empty and at most 120 characters long; the counts of the other
    posts, the comments already there and the posts are as before. *)
Theorem X12_new_comment_counts_once
    (s : Store) (now : timestamp) (pk : Z) (u : User.t) (post_id : Z)
    (text cleaned : str) (post : Post.t)
    (Hpost : posts s !! post_id = Some post)
    (Hclean : CommentForm.clean text = Some cleaned) :
  let result := CommentCreateView s now (LoggedIn pk u) POST post_id text in
  let created :=
    {| Comment.text := cleaned; Comment.post := post_id;
       Comment.created_at := now; Comment.author := pk |} in
  cleaned = strip text
  ∧ (0 < length cleaned ≤ 120)%nat
  ∧ Count_comments result.1 post_id = S (Count_comments s post_id)
  ∧ (∀ k, k ≠ post_id → Count_comments result.1 k = Count_comments s k)
  ∧ (new_pk (comments s), created) ∈ Post_comments result.1 post_id
  ∧ (∀ k c, comments s !! k = Some c → comments result.1 !! k = Some c)
  ∧ posts result.1 = posts s.
Proof.
  intros result created.
  pose proof (new_pk_fresh (comments s)) as Hfresh.
  assert (Hresult : result
                    = (set_comments (insert (new_pk (comments s)) created) s,
                       Redirect (blog_post_detail post_id))).
  { unfold result, CommentCreateView, LoginRequiredMixin_dispatch.
    by rewrite Hpost, Hclean. }
  clearbody result. subst result. simpl.
  pose proof Hclean as [Hstrip Hlen]%CharField_clean_Some.
  split; [done|]. split.
  { split; [|done]. destruct cleaned; [|simpl; lia].
    unfold CommentForm.clean, CharField_clean in Hclean.
    rewrite <- Hstrip in Hclean. by rewrite bool_decide_true in Hclean. }
  split; [|split; [|split; [|split; [|done]]]].
  - rewrite Count_comments_insert by done. simpl. by rewrite decide_True.
  - intros k Hk. rewrite Count_comments_insert by done. simpl.
    by rewrite decide_False.
  - apply elem_of_Post_comments. simpl. split; [apply lookup_insert_eq|done].
  - intros k c Hc. rewrite lookup_insert_ne; [done|congruence].
Qed.

Lemma X12_new_comment_witness :
  Count_comments
    (CommentCreateView Example.store 100 (LoggedIn 2 Example.bob) POST 5
       (str_of " Hi ")).1 5 = 3%nat
  ∧ (5, {| Comment.text := (str_of "Hi"); Comment.post := 5;
           Comment.created_at := 100; Comment.author := 2 |})
    ∈ Post_comments
        (CommentCreateView Example.store 100 (LoggedIn 2 Example.bob) POST 5
           (str_of " Hi ")).1 5.
Proof.
  destruct (X12_new_comment_counts_once Example.store 100 2 Example.bob 5
              (str_of " Hi ") (str_of "Hi") Example.post5 eq_refl eq_refl)
    as (_ & _ & Hcount & _ & Hthread & _).
  split; [exact Hcount | exact Hthread].
Defined.

(** X13: the author's delete removes that comment and nothing else: the
    comment's post loses one from its count, every other comment and every
    post stays, and the redirect goes to the post named in the URL. *)
Theorem X13_author_deletes_one_comment
    (s : Store) (pk : Z) (u : User.t) (post_id comment_id : Z) (c : Comment.t)
    (Hc : comments s !! comment_id = Some c)
    (Hauthor : Comment.author c = pk) :
  let result := CommentDeleteView s (LoggedIn pk u) POST post_id comment_id in
  result.2 = Redirect (blog_post_detail post_id)
  ∧ comments result.1 !! comment_id = None
  ∧ (∀ k, k ≠ comment_id → comments result.1 !! k = comments s !! k)
  ∧ Count_comments s (Comment.post c)
    = S (Count_comments result.1 (Comment.post c))
  ∧ (∀ k, k ≠ Comment.post c → Count_comments result.1 k = Count_comments s k)
  ∧ posts result.1 = posts s.
Proof.
  intros result.
  assert (Hresult : result
                    = (set_comments (delete comment_id) s,
                       Redirect (blog_post_detail post_id))).
  { unfold result, CommentDeleteView, CommentMixin_dispatch,
      LoginRequiredMixin_dispatch.
    rewrite Hc. simpl. by rewrite bool_decide_true. }
  clearbody result. subst result. simpl.
  split; [done|]. split; [apply lookup_delete_eq|].
  split; [intros k Hk; by apply lookup_delete_ne|].
  split; [|split; [|done]].
  - rewrite (Count_comments_delete s comment_id c) by done.
    by rewrite decide_True.
  - intros k Hk. rewrite (Count_comments_delete s comment_id c k) by done.
    by rewrite decide_False.
Qed.

Lemma X13_author_deletes_witness :
  comments (CommentDeleteView Example.store (LoggedIn 1 Example.alice) POST 5 3).1
    !! 3 = None
  ∧ Count_comments
      (CommentDeleteView Example.store (LoggedIn 1 Example.alice) POST 5 3).1 5
    = 1%nat.
Proof.
  destruct (X13_author_deletes_one_comment Example.store 1 Example.alice 5 3
              Example.comment3 eq_refl eq_refl)
    as (_ & Hgone & _ & Hcount & _).
  split; [exact Hgone|].
  exact (Nat.succ_inj _ 1%nat (eq_sym Hcount)).
Defined.

(** X14: the author's edit changes the text of that comment and nothing
    else: post, author and creation time of the comment stay, the new text
    is the stripped submission, every other comment stays, and every post
    keeps its comment count. *)
Theorem X14_author_edits_only_the_text
    (s : Store) (pk : Z) (u : User.t) (post_id comment_id : Z)
    (c : Comment.t) (text cleaned : str)
    (Hc : comments s !! comment_id = Some c)
    (Hauthor : Comment.author c = pk)
    (Hclean : CommentForm.clean text = Some cleaned) :
  let result :=
    CommentUpdateView s (LoggedIn pk u) POST post_id comment_id text in
  result.2 = Redirect (blog_post_detail post_id)
  ∧ cleaned = strip text
  ∧ comments result.1 !! comment_id
    = Some {| Comment.text := cleaned;
              Comment.post := Comment.post c;
              Comment.created_at := Comment.created_at c;
              Comment.author := Comment.author c |}
  ∧ (∀ k, k ≠ comment_id → comments result.1 !! k = comments s !! k)
  ∧ (∀ k, Count_comments result.1 k = Count_comments s k)
  ∧ posts result.1 = posts s.
Proof.
  intros result.
  set (edited := {| Comment.text := cleaned;
                    Comment.post := Comment.post c;
                    Comment.created_at := Comment.created_at c;
                    Comment.author := Comment.author c |}).
  assert (Hresult : result
                    = (set_comments (insert comment_id edited) s,
                       Redirect (blog_post_detail post_id))).
  { unfold result, CommentUpdateView, CommentMixin_dispatch,
      LoginRequiredMixin_dispatch.
    rewrite Hc, Hclean. simpl. by rewrite bool_decide_true. }
  clearbody result. subst result. simpl.
  split; [done|].
  split; [by apply CharField_clean_Some in Hclean as [? _]|].
  split; [apply lookup_insert_eq|].
  split; [intros k Hk; by apply lookup_insert_ne|]. split; [|done].
  intros k.
  assert (Hsplit : set_comments (insert comment_id edited) s
                   = set_comments (insert comment_id edited)
                       (set_comments (delete comment_id) s)).
  { unfold set_comments. simpl. f_equal. by rewrite insert_delete_eq. }
  rewrite Hsplit, Count_comments_insert by (simpl; apply lookup_delete_eq).
  by rewrite (Count_comments_delete s comment_id c k).
Qed.

Lemma X14_author_edits_witness :
  comments (CommentUpdateView Example.store (LoggedIn 1 Example.alice) POST 5 3
              (str_of "Very nice ")).1 !! 3
  = Some {| Comment.text := (str_of "Very nice"); Comment.post := 5;
            Comment.created_at := 40; Comment.author := 1 |}.
Proof.
  destruct (X14_author_edits_only_the_text Example.store 1 Example.alice 5 3
              Example.comment3 (str_of "Very nice ") (str_of "Very nice") eq_refl eq_refl eq_refl)
    as (_ & _ & Hedited & _).
  exact Hedited.
Defined.

(** X15: the [post_id] of a comment URL is never compared with the comment:
    what the edit and delete views do to the store is the same under every
    [post_id], that of a post that does not exist included; it decides only
    where a redirect leads. *)
Theorem X15_comment_views_ignore_the_url_post
    (s : Store) (user : RequestUser) (method : Method)
    (post_id post_id' comment_id : Z) (text : str) :
  (CommentUpdateView s user method post_id comment_id text).1
  = (CommentUpdateView s user method post_id' comment_id text).1
  ∧ (CommentDeleteView s user method post_id comment_id).1
    = (CommentDeleteView s user method post_id' comment_id).1
  ∧ ((CommentUpdateView s user method post_id comment_id text).2
     = Redirect (blog_post_detail post_id)
     ↔ (CommentUpdateView s user method post_id' comment_id text).2
       = Redirect (blog_post_detail post_id'))
  ∧ ((CommentDeleteView s user method post_id comment_id).2
     = Redirect (blog_post_detail post_id)
     ↔ (CommentDeleteView s user method post_id' comment_id).2
       = Redirect (blog_post_detail post_id')).
Proof.
  unfold CommentUpdateView, CommentDeleteView, CommentMixin_dispatch,
    LoginRequiredMixin_dispatch, PostReverseMixin_get_success_url.
  destruct (comments s !! comment_id) as [c|]; [|done].
  destruct (negb _); [done|]. destruct (is_authenticated user); [|done].
  destruct method; [done|]. by destruct (CommentForm.clean text).
Qed.

(** X16: a comment on a post its writer cannot see.  When a logged-in user
    who is not the author comments on an unpublished or not yet due post,
    the comment is stored and the response redirects to the post's detail
    view, which answers that same user with NotFound; the post's author
    finds the comment in the thread. *)
Theorem X16_comment_on_hidden_post_redirects_to_not_found
    (s : Store) (now later : timestamp) (pk : Z) (u : User.t) (post_id : Z)
    (post : Post.t) (text cleaned : str)
    (Hpost : posts s !! post_id = Some post)
    (Hother : is_user (Post.author post) (LoggedIn pk u) = false)
    (Hhidden : Post.is_published post = false ∨ later < Post.pub_date post)
    (Hclean : CommentForm.clean text = Some cleaned) :
  let result := CommentCreateView s now (LoggedIn pk u) POST post_id text in
  let created :=
    {| Comment.text := cleaned; Comment.post := post_id;
       Comment.created_at := now; Comment.author := pk |} in
  result.2 = Redirect (blog_post_detail post_id)
  ∧ comments result.1 !! new_pk (comments s) = Some created
  ∧ PostDetailView result.1 later (LoggedIn pk u) post_id = Http404
  ∧ (∀ author_pk author_row,
       Post.author post = Some author_pk →
       ∃ thread,
         PostDetailView result.1 later (LoggedIn author_pk author_row) post_id
         = TemplateResponse (DetailContext (post_id, post) thread)
         ∧ (new_pk (comments s), created) ∈ thread).
Proof.
  intros result created.
  assert (Hresult : result
                    = (set_comments (insert (new_pk (comments s)) created) s,
                       Redirect (blog_post_detail post_id))).
  { unfold result, CommentCreateView, LoginRequiredMixin_dispatch.
    by rewrite Hpost, Hclean. }
  clearbody result. subst result. simpl.
  split; [done|]. split; [apply lookup_insert_eq|]. split.
  - apply (PostDetailView_hidden _ _ _ _ post); [done..|tauto].
  - intros author_pk author_row Hauthor. eexists. split.
    + apply PostDetailView_author; [done|].
      rewrite Hauthor. simpl. by rewrite bool_decide_true.
    + apply elem_of_Post_comments. simpl.
      split; [apply lookup_insert_eq|done].
Qed.

Lemma X16_comment_on_hidden_post_witness :
  (CommentCreateView Example.store 100 (LoggedIn 2 Example.bob) POST 3 (str_of "Hi")).2
  = Redirect (blog_post_detail 3)
  ∧ PostDetailView
      (CommentCreateView Example.store 100 (LoggedIn 2 Example.bob) POST 3 (str_of "Hi")).1
      100 (LoggedIn 2 Example.bob) 3 = Http404.
Proof.
  destruct (X16_comment_on_hidden_post_redirects_to_not_found Example.store
              100 100 2 Example.bob 3 Example.post3 (str_of "Hi") (str_of "Hi")
              eq_refl eq_refl (or_introl eq_refl) eq_refl)
    as (Hredirect & _ & Hdetail & _).
  split; [exact Hredirect | exact Hdetail].
Defined.

(** ** Invariants of the store *)

(** X17: referential integrity is an invariant: if every comment's post
    exists before a request, it does after it, for every view, user, method
    and form data; the cascade of the post delete is what keeps it. *)
Theorem X17_views_keep_comments_on_existing_posts
    (default_is_published : bool) (s : Store) (now : timestamp)
    (user : RequestUser) (method : Method) (post_id comment_id : Z)
    (post_form : option PostForm.cleaned_data)
    (user_form : option UserForm.cleaned_data) (text : str)
    (Hfk : comments_have_posts s) :
  comments_have_posts (ProfileUpdateView s user method user_form).1
  ∧ comments_have_posts
      (PostCreateView default_is_published s now user method post_form).1
  ∧ comments_have_posts (PostUpdateView s user method post_id post_form).1
  ∧ comments_have_posts (PostDeleteView s user method post_id).1
  ∧ comments_have_posts (CommentCreateView s now user method post_id text).1
  ∧ comments_have_posts
      (CommentUpdateView s user method post_id comment_id text).1
  ∧ comments_have_posts (CommentDeleteView s user method post_id comment_id).1.
Proof.
  split.
  { unfold ProfileUpdateView, LoginRequiredMixin_dispatch.
    destruct user as [|pk u]; [done|]. destruct (users s !! pk); [|done].
    simpl. by destruct method, user_form. }
  auto 10 using PostCreateView_integrity, PostUpdateView_integrity,
    PostDeleteView_integrity, CommentCreateView_integrity,
    CommentUpdateView_integrity, CommentDeleteView_integrity.
Qed.

Lemma X17_integrity_witness :
  comments_have_posts Example.store
  ∧ comments_have_posts
      (PostDeleteView Example.store (LoggedIn 1 Example.alice) POST 5).1.
Proof.
  split; [exact Example_comments_have_posts|].
  destruct (X17_views_keep_comments_on_existing_posts true Example.store 100
              (LoggedIn 1 Example.alice) POST 5 3 None None (str_of "x")
              Example_comments_have_posts)
    as (_ & _ & _ & Hdelete & _).
  exact Hdelete.
Defined.

(** *** Stripping *)

Lemma lstrip_starts_clean s : starts_clean (lstrip s).
Proof.
  induction s as [|c s IH]; [done|]. simpl.
  by destruct (isspace c) eqn:Hc.
Qed.

Lemma lstrip_id s : starts_clean s → lstrip s = s.
Proof. destruct s as [|c s]; [done|]. simpl. by intros ->. Qed.

Lemma rstrip_starts_clean s : starts_clean s → starts_clean (rstrip s).
Proof.
  destruct s as [|c s]; [done|]. simpl. intros Hc.
  destruct (rstrip s); by rewrite ?Hc.
Qed.

Lemma rstrip_idempotent s : rstrip (rstrip s) = rstrip s.
Proof.
  induction s as [|c s IH]; [done|]. simpl.
  destruct (rstrip s) as [|a r] eqn:Hr.
  - destruct (isspace c) eqn:Hc; [done|]. simpl. by rewrite Hc.
  - change (rstrip (c :: a :: r)) with
      (match rstrip (a :: r) with
       | [] => if isspace c then [] else [c]
       | r' => c :: r'
       end).
    by rewrite IH.
Qed.

Lemma strip_idempotent s : strip (strip s) = strip s.
Proof.
  unfold strip.
  rewrite (lstrip_id (rstrip (lstrip s)))
    by apply rstrip_starts_clean, lstrip_starts_clean.
  apply rstrip_idempotent.
Qed.

Lemma CharField_clean_strip required max_length value :
  CharField_clean required max_length (strip value)
  = CharField_clean required max_length value.
Proof. unfold CharField_clean. by rewrite strip_idempotent. Qed.

Lemma CommentForm_clean_fixed text cleaned :
  CommentForm.clean text = Some cleaned →
  CommentForm.clean cleaned = Some cleaned.
Proof.
  intros Hclean. unfold CommentForm.clean in *.
  pose proof Hclean as [-> _]%CharField_clean_Some.
  by rewrite CharField_clean_strip.
Qed.

(** X18: the comment form only ever lets clean text into the store: if
    every stored comment text is non-empty, stripped and at most 120
    characters long before a request, the same holds after it, for every
    view, user, method and submitted text. *)
Theorem X18_views_keep_comment_texts_clean
    (default_is_published : bool) (s : Store) (now : timestamp)
    (user : RequestUser) (method : Method) (post_id comment_id : Z)
    (post_form : option PostForm.cleaned_data)
    (user_form : option UserForm.cleaned_data) (text : str)
    (Hclean : comment_texts_clean s) :
  (∀ k c, comments s !! k = Some c →
          strip (Comment.text c) = Comment.text c
          ∧ (0 < length (Comment.text c) ≤ 120)%nat)
  ∧ comment_texts_clean (ProfileUpdateView s user method user_form).1
  ∧ comment_texts_clean
      (PostCreateView default_is_published s now user method post_form).1
  ∧ comment_texts_clean (PostUpdateView s user method post_id post_form).1
  ∧ comment_texts_clean (PostDeleteView s user method post_id).1
  ∧ comment_texts_clean (CommentCreateView s now user method post_id text).1
  ∧ comment_texts_clean
      (CommentUpdateView s user method post_id comment_id text).1
  ∧ comment_texts_clean (CommentDeleteView s user method post_id comment_id).1.
Proof.
  unfold ProfileUpdateView, PostCreateView, PostCreateView_form_valid,
    PostUpdateView, PostDeleteView, CommentCreateView,
    CommentCreateView_form_valid, CommentUpdateView,
    CommentDeleteView, PostMixin_dispatch, CommentMixin_dispatch,
    LoginRequiredMixin_dispatch.
  split; [|repeat split].
  - intros k c Hc. specialize (Hclean k c Hc).
    pose proof Hclean as [Hstrip Hlen]%CharField_clean_Some.
    split; [done|]. split; [|done].
    destruct (Comment.text c) eqn:Htext; [|simpl; lia].
    by vm_compute in Hclean.
  - destruct user as [|pk u]; [done|]. destruct (users s !! pk); [|done].
    simpl. by destruct method, user_form.
  - destruct user as [|pk u]; [done|]. simpl. by destruct method, post_form.
  - destruct (posts s !! post_id) as [post|]; [|done].
    destruct (negb _); [done|]. destruct (is_authenticated user); [|done].
    by destruct method, post_form.
  - destruct (posts s !! post_id) as [post|]; [|done].
    destruct (negb _); [done|]. destruct (is_authenticated user); [|done].
    destruct method; [done|].
    intros k c Hkc. simpl in Hkc.
    apply map_lookup_filter_Some in Hkc as [Hc _]. by apply (Hclean k).
  - destruct (posts s !! post_id); [|done].
    destruct user as [|pk u]; [done|]. simpl.
    destruct method; [done|].
    destruct (CommentForm.clean text) as [cleaned|] eqn:Htext; [|done].
    intros k c Hkc. simpl in Hkc.
    apply lookup_insert_Some in Hkc as [[_ <-]|[_ Hc]].
    + simpl. by apply (CommentForm_clean_fixed text).
    + by apply (Hclean k).
  - destruct (comments s !! comment_id); [|done].
    destruct (negb _); [done|]. destruct (is_authenticated user); [|done].
    destruct method; [done|].
    destruct (CommentForm.clean text) as [cleaned|] eqn:Htext; [|done].
    intros k c Hkc. simpl in Hkc.
    apply lookup_insert_Some in Hkc as [[_ <-]|[_ Hc]].
    + simpl. by apply (CommentForm_clean_fixed text).
    + by apply (Hclean k).
  - destruct (comments s !! comment_id); [|done].
    destruct (negb _); [done|]. destruct (is_authenticated user); [|done].
    destruct method; [done|].
    intros k c Hkc. simpl in Hkc.
    apply lookup_delete_Some in Hkc as [_ Hc]. by apply (Hclean k).
Qed.

Lemma Example_comment_texts_clean : comment_texts_clean Example.store.
Proof. intros k c H. simpl in H. example_lookup; done. Qed.

Lemma X18_comment_texts_witness :
  comment_texts_clean Example.store
  ∧ comment_texts_clean
      (CommentCreateView Example.store 100 (LoggedIn 2 Example.bob) POST 5
         Example.padded_text).1.
Proof.
  split; [exact Example_comment_texts_clean|].
  destruct (X18_views_keep_comment_texts_clean true Example.store 100
              (LoggedIn 2 Example.bob) POST 5 3 None None Example.padded_text
              Example_comment_texts_clean)
    as (_ & _ & _ & _ & _ & Hcreate & _).
  exact Hcreate.
Defined.

(** X19: cleaning is idempotent and resubmitting is harmless: a text the
    comment form has cleaned is accepted unchanged when submitted again, and
    when the author of a comment with clean text posts the edit form without
    changing it, the store stays exactly as it is. *)
Theorem X19_resubmitting_a_comment_changes_nothing
    (s : Store) (pk : Z) (u : User.t) (post_id comment_id : Z) (c : Comment.t)
    (text cleaned : str)
    (Hform : CommentForm.clean text = Some cleaned)
    (Hc : comments s !! comment_id = Some c)
    (Hauthor : Comment.author c = pk)
    (Htext : Comment.text c = cleaned) :
  strip cleaned = cleaned
  ∧ CommentForm.clean cleaned = Some cleaned
  ∧ CommentUpdateView s (LoggedIn pk u) POST post_id comment_id cleaned
    = (s, Redirect (blog_post_detail post_id)).
Proof.
  pose proof (CommentForm_clean_fixed _ _ Hform) as Hfixed.
  split; [|split; [done|]].
  - apply CharField_clean_Some in Hform as [-> _]. apply strip_idempotent.
  - unfold CommentUpdateView, CommentMixin_dispatch,
      LoginRequiredMixin_dispatch, PostReverseMixin_get_success_url.
    rewrite Hc, Hfixed. simpl. rewrite bool_decide_true by done.
    f_equal. destruct s as [us cs ls ps cms]. unfold set_comments. simpl in *.
    f_equal. apply insert_id. rewrite Hc. f_equal.
    destruct c. simpl in *. by subst.
Qed.

Lemma X19_resubmitting_witness :
  CommentUpdateView Example.store (LoggedIn 1 Example.alice) POST 5 3 (str_of "Nice")
  = (Example.store, Redirect (blog_post_detail 5)).
Proof.
  destruct (X19_resubmitting_a_comment_changes_nothing Example.store 1
              Example.alice 5 3 Example.comment3 (str_of " Nice ") (str_of "Nice")
              eq_refl eq_refl eq_refl eq_refl)
    as (_ & _ & Hsame).
  exact Hsame.
Defined.

(** ** Scheduled publication *)

(** X20: creating a post overwrites nothing, and the new post goes public on
    schedule: every post and comment already stored is kept as it is, and
    the new post is in the public listing of a later moment exactly when the
    model's default publishes it, the chosen category exists and is
    published, and the chosen date lies before that moment; it is listed
    with comment count 0. *)
Theorem X20_new_post_is_listed_on_schedule
    (default_is_published : bool) (s : Store) (now later : timestamp)
    (pk : Z) (u : User.t) (d : PostForm.cleaned_data) (n : nat)
    (Hfk : comments_have_posts s) :
  let post_id := new_pk (posts s) in
  let created :=
    {| Post.title := PostForm.title d;
       Post.text := PostForm.text d;
       Post.pub_date := PostForm.pub_date d;
       Post.author := Some pk;
       Post.category := Some (PostForm.category d);
       Post.location := PostForm.location d;
       Post.image := PostForm.image d;
       Post.is_published := default_is_published;
       Post.created_at := now |} in
  let result :=
    PostCreateView default_is_published s now (LoggedIn pk u) POST (Some d) in
  (∀ k p, posts s !! k = Some p → posts result.1 !! k = Some p)
  ∧ comments result.1 = comments s
  ∧ ((post_id, created, n) ∈ PostManager_get_queryset result.1 later ↔
       default_is_published = true
       ∧ (∃ c, categories s !! PostForm.category d = Some c
               ∧ Category.is_published c = true)
       ∧ PostForm.pub_date d < later
       ∧ n = 0%nat).
Proof.
  intros post_id created result.
  pose proof (new_pk_fresh (posts s)) as Hfresh. fold post_id in Hfresh.
  assert (Hresult : result
                    = (set_posts (insert post_id created) s,
                       Redirect (blog_profile (User.username u)))) by done.
  clearbody result. subst result. simpl.
  split; [|split; [done|]].
  - intros k p Hp. rewrite lookup_insert_ne; [done|congruence].
  - assert (Hcount : Count_comments (set_posts (insert post_id created) s) post_id
                     = 0%nat).
    { apply no_comments. intros k c Hc Heq.
      destruct (Hfk k c Hc) as [p Hp]. congruence. }
    rewrite elem_of_PostManager_get_queryset, Hcount. simpl.
    rewrite lookup_insert_eq. unfold category__is_published. simpl.
    destruct (categories s !! PostForm.category d) as [c|] eqn:Hc.
    + split.
      * intros (_ & ? & ? & ? & ?). split; [done|].
        split; [by exists c|done].
      * intros (? & (c' & [= <-] & ?) & ? & ?). done.
    + split; [by intros (_ & _ & ? & _)|by intros (_ & (c' & ? & _) & _)].
Qed.

Lemma X20_new_post_witness :
  let created :=
    {| Post.title := "New"; Post.text := "Body"; Post.pub_date := 500;
       Post.author := Some 2; Post.category := Some 1;
       Post.location := None; Post.image := "";
       Post.is_published := true; Post.created_at := 100 |} in
  let after :=
    (PostCreateView true Example.store 100 (LoggedIn 2 Example.bob) POST
       (Some Example.form)).1 in
  ((8, created, 0%nat) ∉ PostManager_get_queryset after 500)
  ∧ ((8, created, 0%nat) ∈ PostManager_get_queryset after 501).
Proof.
  intros created after. split.
  - destruct (X20_new_post_is_listed_on_schedule true Example.store 100 500 2
                Example.bob Example.form 0 Example_comments_have_posts)
      as (_ & _ & Hlisted).
    intros Hin. apply Hlisted in Hin as (_ & _ & Hdue & _).
    discriminate Hdue.
  - destruct (X20_new_post_is_listed_on_schedule true Example.store 100 501 2
                Example.bob Example.form 0 Example_comments_have_posts)
      as (_ & _ & Hlisted).
    apply Hlisted. split; [reflexivity|].
    split; [by exists Example.travel|]. split; [reflexivity|reflexivity].
Defined.

(** ** Profiles *)

Lemma get_NoRow_inv {A} (P : Z * A → Prop) `{!∀ r, Decision (P r)}
    (table : gmap Z A) k x :
  get P table = NoRow → table !! k = Some x → ¬ P (k, x).
Proof.
  unfold get. intros Hget Hk HP.
  assert (Hin : (k, x) ∈ filter P (all table)).
  { apply list_elem_of_filter. split; [done|]. by apply elem_of_all. }
  destruct (filter P (all table)) as [|a [|b l]]; [|done..].
  by apply elem_of_nil in Hin.
Qed.

(** X21: with unique usernames, the profile page answers NotFound exactly
    when the requested page is invalid or no user has the requested
    username; otherwise it renders the requested page of
    [ProfileListView.get_queryset] with that user's row.  A request without
    a page parameter is NotFound exactly when no user has the username. *)
Theorem X21_profile_page_needs_an_existing_user
    (page_size : nat) (s : Store) (now : timestamp) (viewer : RequestUser)
    (name : string) (page : PageParam)
    (Hunique : unique_usernames s) :
  let queryset := ProfileListView_get_queryset s now viewer name in
  (ProfileListView page_size s now viewer name page = Http404 ↔
     get_page page_size page queryset = None
     ∨ ∀ k u, users s !! k = Some u → User.username u ≠ name)
  ∧ (∀ k u object_list,
       users s !! k = Some u → User.username u = name →
       get_page page_size page queryset = Some object_list →
       ProfileListView page_size s now viewer name page
       = TemplateResponse (ProfileContext object_list (k, u)))
  ∧ (ProfileListView page_size s now viewer name NoPage = Http404 ↔
       ∀ k u, users s !! k = Some u → User.username u ≠ name).
Proof.
  intros queryset.
  assert (Hfound : ∀ page' k u object_list,
            users s !! k = Some u → User.username u = name →
            get_page page_size page' queryset = Some object_list →
            ProfileListView page_size s now viewer name page'
            = TemplateResponse (ProfileContext object_list (k, u))).
  { intros page' k u object_list Hu Hname Hpage. unfold ProfileListView.
    fold queryset. rewrite Hpage.
    rewrite (get_One _ _ k u); [done..|].
    intros k' u' Hu' Hname'. simpl in *.
    apply (Hunique k' k u' u); congruence. }
  assert (Hiff : ∀ page',
            ProfileListView page_size s now viewer name page' = Http404 ↔
              get_page page_size page' queryset = None
              ∨ ∀ k u, users s !! k = Some u → User.username u ≠ name).
  { intros page'. split.
    - intros H404.
      destruct (get_page page_size page' queryset) as [object_list|] eqn:Hpage;
        [right|by left].
      intros k u Hu Hname.
      by rewrite (Hfound page' k u object_list Hu Hname Hpage) in H404.
    - unfold ProfileListView. fold queryset.
      intros [->|Hnone]; [done|].
      destruct (get_page _ _ _); [|done].
      rewrite get_NoRow; [done|]. intros k u Hu Hname. by apply (Hnone k u). }
  split; [apply Hiff|]. split; [apply Hfound|].
  rewrite Hiff, get_page_NoPage. split; [|by right].
  by intros [?|?].
Qed.

Lemma X21_profile_page_witness :
  ProfileListView Example.NUMBER_OF_PUBLICATIONS Example.store 100
    AnonymousUser "carol" NoPage = Http404
  ∧ ProfileListView Example.NUMBER_OF_PUBLICATIONS Example.store 100
      AnonymousUser "bob" (PageNumber 2) = Http404
  ∧ ProfileListView Example.NUMBER_OF_PUBLICATIONS Example.store 100
      AnonymousUser "bob" NoPage
    = TemplateResponse
        (ProfileContext [(7, Example.post7, 0%nat)] (2, Example.bob)).
Proof.
  split; [|split].
  - apply (X21_profile_page_needs_an_existing_user
             Example.NUMBER_OF_PUBLICATIONS Example.store 100
             AnonymousUser "carol" NoPage Example_unique_usernames).
    intros k u Hu. simpl in Hu. example_lookup; discriminate.
  - apply (X21_profile_page_needs_an_existing_user
             Example.NUMBER_OF_PUBLICATIONS Example.store 100
             AnonymousUser "bob" (PageNumber 2) Example_unique_usernames).
    left. reflexivity.
  - destruct (X21_profile_page_needs_an_existing_user
                Example.NUMBER_OF_PUBLICATIONS Example.store 100
                AnonymousUser "bob" NoPage Example_unique_usernames)
      as (_ & Hfound & _).
    exact (Hfound 2 Example.bob _ eq_refl eq_refl eq_refl).
Defined.



(** X23: renaming keeps the posts.  When a stored user posts a profile form
    whose username no other user holds, usernames stay unique, the profile
    page under the new username renders (every valid page of it, the first
    one always) with the renamed row, its listing holds exactly the posts
    that user wrote, with their comment counts, and, if the name changed,
    the page under the old username answers NotFound. *)
Theorem X23_rename_keeps_the_posts
    (page_size : nat) (s : Store) (now : timestamp) (pk : Z) (u : User.t)
    (d : UserForm.cleaned_data) (page : PageParam)
    (Hunique : unique_usernames s)
    (Hu : users s !! pk = Some u)
    (Hfree : ∀ k u', users s !! k = Some u' →
                     User.username u' = UserForm.username d → k = pk) :
  let result := ProfileUpdateView s (LoggedIn pk u) POST (Some d) in
  let renamed := UserForm.assign d in
  let name := UserForm.username d in
  unique_usernames result.1
  ∧ (∀ k p n,
       (k, p, n) ∈ ProfileListView_get_queryset result.1 now
                     (LoggedIn pk renamed) name ↔
       posts s !! k = Some p ∧ Post.author p = Some pk
       ∧ n = Count_comments s k)
  ∧ ProfileListView page_size result.1 now (LoggedIn pk renamed) name page
    = match get_page page_size page
              (ProfileListView_get_queryset result.1 now
                 (LoggedIn pk renamed) name) with
      | Some object_list =>
          TemplateResponse (ProfileContext object_list (pk, renamed))
      | None => Http404
      end
  ∧ ProfileListView page_size result.1 now (LoggedIn pk renamed) name NoPage
    = TemplateResponse
        (ProfileContext
           (match page_size with
            | O => ProfileListView_get_queryset result.1 now
                     (LoggedIn pk renamed) name
            | S _ => take page_size
                       (ProfileListView_get_queryset result.1 now
                          (LoggedIn pk renamed) name)
            end)
           (pk, renamed))
  ∧ (User.username u ≠ name →
     ∀ viewer,
       ProfileListView page_size result.1 now viewer (User.username u) page
       = Http404).
Proof.
  intros result renamed name.
  assert (Hresult : result
                    = (set_users (insert pk renamed) s,
                       Redirect (blog_profile name))).
  { unfold result, ProfileUpdateView, LoginRequiredMixin_dispatch.
    by rewrite Hu. }
  clearbody result. subst result. simpl.
  set (s' := set_users (insert pk renamed) s).
  assert (Hrow : users s' !! pk = Some renamed) by apply lookup_insert_eq.
  assert (Hunique' : unique_usernames s').
  { intros k1 k2 u1 u2 H1 H2 Hname. unfold s' in H1, H2. simpl in H1, H2.
    apply lookup_insert_Some in H1 as [[<- <-]|[Hk1 H1]];
      apply lookup_insert_Some in H2 as [[<- <-]|[Hk2 H2]].
    - done.
    - symmetry. by apply (Hfree k2 u2).
    - by apply (Hfree k1 u1).
    - by apply (Hunique k1 k2 u1 u2). }
  assert (Hrenders : ∀ page',
            ProfileListView page_size s' now (LoggedIn pk renamed) name page'
            = match get_page page_size page'
                      (ProfileListView_get_queryset s' now
                         (LoggedIn pk renamed) name) with
              | Some object_list =>
                  TemplateResponse (ProfileContext object_list (pk, renamed))
              | None => Http404
              end).
  { intros page'. unfold ProfileListView.
    destruct (get_page _ _ _); [|done].
    rewrite (get_One _ _ pk renamed); [done..|].
    intros k' u' Hu' Hname. simpl in Hname.
    by apply (Hunique' k' pk u' renamed). }
  split; [done|]. split; [|split; [|split]].
  - intros k p n. unfold ProfileListView_get_queryset.
    rewrite bool_decide_false by (intros Hne; by apply Hne).
    rewrite elem_of_annotate, elem_of_order_by_pub_date_desc,
      list_elem_of_filter, elem_of_all. simpl.
    change (User.username renamed) with name.
    rewrite <- (author__username_owner s' pk renamed p Hunique' Hrow).
    change (User.username renamed) with name.
    change (Count_comments s' k) with (Count_comments s k). tauto.
  - apply Hrenders.
  - by rewrite Hrenders, get_page_NoPage.
  - intros Hchanged viewer. unfold ProfileListView.
    destruct (get_page _ _ _); [|done].
    rewrite get_NoRow; [done|]. intros k u' Hu' Hname. simpl in Hname.
    unfold s' in Hu'. simpl in Hu'.
    apply lookup_insert_Some in Hu' as [[<- <-]|[Hk Hu']].
    + by apply Hchanged.
    + apply Hk. symmetry. by apply (Hunique k pk u' u).
Qed.

Lemma X23_rename_witness :
  let robert :=
    {| UserForm.username := "robert"; UserForm.first_name := "Bob";
       UserForm.last_name := "B"; UserForm.email := "bob@example.com" |} in
  let after :=
    (ProfileUpdateView Example.store (LoggedIn 2 Example.bob) POST
       (Some robert)).1 in
  ((7, Example.post7, 0%nat)
   ∈ ProfileListView_get_queryset after 100
       (LoggedIn 2 (UserForm.assign robert)) "robert")
  ∧ ProfileListView Example.NUMBER_OF_PUBLICATIONS after 100 AnonymousUser
      "bob" NoPage = Http404.
Proof.
  intros robert after.
  assert (Hfree : ∀ k u', users Example.store !! k = Some u' →
                          User.username u' = UserForm.username robert → k = 2).
  { intros k u' Hu'. simpl in Hu'. example_lookup; done. }
  destruct (X23_rename_keeps_the_posts Example.NUMBER_OF_PUBLICATIONS
              Example.store 100 2 Example.bob robert NoPage
              Example_unique_usernames eq_refl Hfree)
    as (_ & Hposts & _ & _ & Hold).
  split.
  - apply Hposts. repeat split.
  - apply Hold. discriminate.
Defined.

(** ** Categories *)

(** X24: the category link of a listed post works: with unique slugs, every
    post of the public listing has a category whose feed renders, for that
    category, on every valid page, and shows the post with the same comment
    count on one of its pages. *)
Theorem X24_listed_posts_are_in_their_category_feed
    (page_size : nat) (s : Store) (now : timestamp) (k : Z) (p : Post.t)
    (n : nat)
    (Hunique : unique_slugs s)
    (Hlisted : (k, p, n) ∈ PostManager_get_queryset s now) :
  ∃ kc c,
    Post.category p = Some kc
    ∧ categories s !! kc = Some c
    ∧ (∀ page,
         CategoryPostsListView page_size s now (Category.slug c) page
         = match get_page page_size page
                   (CategoryPostsListView_get_queryset s now (Category.slug c))
           with
           | Some object_list =>
               TemplateResponse (CategoryContext object_list (kc, c))
           | None => Http404
           end)
    ∧ (k, p, n) ∈ CategoryPostsListView_get_queryset s now (Category.slug c)
    ∧ (∃ page object_list,
         CategoryPostsListView page_size s now (Category.slug c) page
         = TemplateResponse (CategoryContext object_list (kc, c))
         ∧ (k, p, n) ∈ object_list).
Proof.
  pose proof Hlisted as (_ & _ & Hcat & _)%elem_of_PostManager_get_queryset.
  unfold category__is_published in Hcat.
  destruct (Post.category p) as [kc|] eqn:Hkc; [|done].
  destruct (categories s !! kc) as [c|] eqn:Hc; [|done].
  assert (Hrenders : ∀ page,
            CategoryPostsListView page_size s now (Category.slug c) page
            = match get_page page_size page
                      (CategoryPostsListView_get_queryset s now (Category.slug c))
              with
              | Some object_list =>
                  TemplateResponse (CategoryContext object_list (kc, c))
              | None => Http404
              end).
  { intros page. unfold CategoryPostsListView.
    destruct (get_page _ _ _); [|done].
    rewrite (get_One _ _ kc c); [done..|].
    intros k' c' Hc' [Hslug _]. simpl in Hslug.
    by apply (Hunique k' kc c' c). }
  assert (Hin : (k, p, n)
                ∈ CategoryPostsListView_get_queryset s now (Category.slug c)).
  { unfold CategoryPostsListView_get_queryset.
    apply list_elem_of_filter. split; [|done]. simpl.
    unfold category__slug. rewrite Hkc. simpl. by rewrite Hc. }
  exists kc, c. split; [done|]. split; [done|]. split; [done|].
  split; [done|].
  destruct (get_page_covers page_size _ _ Hin) as (page & object_list & Hpage & ?).
  exists page, object_list. split; [|done]. by rewrite Hrenders, Hpage.
Qed.

Lemma X24_category_feed_witness :
  (7, Example.post7, 0%nat) ∈ PostManager_get_queryset Example.store 100
  ∧ ∃ kc c,
      Post.category Example.post7 = Some kc
      ∧ categories Example.store !! kc = Some c
      ∧ (7, Example.post7, 0%nat)
        ∈ CategoryPostsListView_get_queryset Example.store 100 (Category.slug c).
Proof.
  assert (Hlisted : (7, Example.post7, 0%nat)
                    ∈ PostManager_get_queryset Example.store 100)
    by (vm_compute; left).
  split; [exact Hlisted|].
  destruct (X24_listed_posts_are_in_their_category_feed
              Example.NUMBER_OF_PUBLICATIONS Example.store 100 7
              Example.post7 0 Example_unique_slugs Hlisted)
    as (kc & c & Hkc & Hc & _ & Hfeed & _).
  exists kc, c. split; [exact Hkc|]. split; [exact Hc | exact Hfeed].
Defined.
